(** * Retry, polling and chunked-update loops of [SharePointAccess]

    A shallow embedding of the control loops of
    [src/core/sharepoint_class.py]: [wait_for_file], [update_range_data],
    [refresh_pivot_table] and [refresh_individual_pivot_table].

    The methods talk to the outside through [self._session] (HTTP calls),
    [time.time] and [time.sleep].  They are embedded in a state-and-exception
    monad over a [world] that carries the wall clock and the chronological
    trace of requests and sleeps.  The remote side is a parameter
    ([transport]): given the history so far and a request it tells how long
    the call takes and whether it raises or answers.

    Conventions of the model:
    - the clock counts seconds as rationals; a session call lasts as long
      as the remote side says, a sleep exactly as long as asked, and
      nothing else takes time;
    - strings are sequences of 8-bit characters, which is what header
      values are once decoded as ISO-8859-1;
    - [time.sleep] takes whole seconds from 0 to 9223372036 and raises
      for any other length; [int] takes up to 4300 digits, the default of
      the interpreter's limit;
    - [print] only writes to standard output and is left out of the trace;
    - a [while] loop runs on fuel, and [Diverged] tells that it ran out. *)

From Stdlib Require Import ZArith QArith Lia Lqa String Ascii List.
From stdpp Require Import base gmap strings list pretty.

Set Warnings "-register-all".
Set Default Proof Using "Type".

Local Open Scope Z_scope.
Local Open Scope string_scope.
Local Open Scope list_scope.

(** ** Python values and builtins *)

(** Decoded JSON documents ([response.json()]) and JSON request bodies. *)
Inductive json :=
| JNull
| JBool (b : bool)
| JNum (q : Q)
| JStr (s : string)
| JArr (l : list json)
| JObj (m : gmap string json).

(** The exceptions that can travel through the modelled methods.  All of
    them are subclasses of Python's [Exception], so [except Exception]
    catches every one of them. *)
Inductive exn :=
| TransportError (msg : string)   (* requests.exceptions.RequestException, raised by the session *)
| JSONDecodeError                 (* response.json() on a body that is not JSON *)
| AttributeError                  (* method lookup on a value that lacks it *)
| ValueError                      (* int() on a bad literal, time.sleep() of a negative length *)
| OverflowError                   (* time.sleep() of a length that does not fit its timestamp *)
| PyException (msg : string).     (* raise Exception(msg) *)

Module Py.

(** [needle in hay] on strings. *)
Fixpoint contains (needle hay : string) : bool :=
  String.prefix needle hay ||
  match hay with
  | EmptyString => false
  | String _ hay' => contains needle hay'
  end.

Fixpoint all_chars (p : ascii → bool) (s : string) : bool :=
  match s with
  | EmptyString => true
  | String c s' => p c && all_chars p s'
  end.

(** Truth value of a string: the empty string is falsy. *)
Definition truthy (s : string) : bool :=
  match s with EmptyString => false | _ => true end.

(** The characters [0]..[9]. *)
Definition is_decimal (c : ascii) : bool :=
  let n := N_of_ascii c in ((48 <=? n) && (n <=? 57))%N.

(** The characters for which [str.isdigit] holds among the code points
    below 256 (header values are decoded as ISO-8859-1): the decimal
    digits and the superscript digits U+00B2, U+00B3 and U+00B9. *)
Definition is_digit (c : ascii) : bool :=
  let n := N_of_ascii c in
  is_decimal c || (n =? 178)%N || (n =? 179)%N || (n =? 185)%N.

(** [s.isdigit()]: every character is a digit and there is at least one. *)
Definition isdigit (s : string) : bool := truthy s && all_chars is_digit s.

Fixpoint int_digits (acc : Z) (s : string) : Z :=
  match s with
  | EmptyString => acc
  | String c s' => int_digits (10 * acc + (Z.of_N (N_of_ascii c) - 48)) s'
  end.

(** The most digits that [int] takes in a string: the default of the
    interpreter's limit on the conversion ([sys.get_int_max_str_digits]). *)
Definition max_str_digits : nat := 4300.

(** [int(s)] on a string that passed [isdigit]: the decimal value when
    all characters are decimal digits and there are no more of them than
    the limit allows, [None] (a [ValueError]) otherwise.  Signs, blanks
    and underscores, which [int] accepts, never pass [isdigit]. *)
Definition int (s : string) : option Z :=
  if truthy s && all_chars is_decimal s && (String.length s <=? max_str_digits)%nat
  then Some (int_digits 0 s) else None.

(** [s.replace(old, new)] for a one-character [old]. *)
Fixpoint replace (old : ascii) (new : string) (s : string) : string :=
  match s with
  | EmptyString => EmptyString
  | String c s' =>
      if Ascii.eqb c old then new +:+ replace old new s'
      else String c (replace old new s')
  end.

(** [str(n)] for an integer, as used by f-strings. *)
Definition str (n : Z) : string := pretty n.

(** An optional string inside an f-string: [None] prints as [None]. *)
Definition str_opt (o : option string) : string :=
  match o with Some s => s | None => "None" end.

(** [range(n)]. *)
Definition range (n : Z) : list Z := map Z.of_nat (seq 0 (Z.to_nat n)).

End Py.

(** ** HTTP data *)

Inductive method := GET | POST | PATCH.

Record request := {
  meth : method;
  url : string;
  req_headers : gmap string string;
  req_json : option json
}.

(** A [requests.Response].  [json_body] is what [response.json()] decodes,
    [None] when decoding raises.  [headers] is indexed by the field name as
    the code spells it (the dict of [requests] ignores case). *)
Record response := {
  status_code : Z;
  text : string;
  headers : gmap string string;
  json_body : option json
}.

(** [response.ok]: [raise_for_status] raises for 400 <= status < 600. *)
Definition ok (r : response) : bool :=
  negb ((400 <=? status_code r)%Z && (status_code r <? 600)%Z).

Inductive reply :=
| Raises (e : exn)
| Responds (r : response).

Inductive event :=
| ERequest (r : request)
| ESleep (seconds : Z).

(** ** The world and the monad *)

Record world := { now : Q; trace : list event }.

(** The world after a session call that took [d] seconds. *)
Definition after_call (w : world) (d : Q) (req : request) : world :=
  {| now := (now w + d)%Q; trace := trace w ++ [ERequest req] |}.

(** The world after a sleep of [s] seconds. *)
Definition after_sleep (w : world) (s : Z) : world :=
  {| now := (now w + inject_Z s)%Q; trace := trace w ++ [ESleep s] |}.

Inductive outcome (A : Type) :=
| Returned (a : A)
| Raised (e : exn)
| Diverged.                       (* the loop fuel ran out *)
Arguments Returned {A} a.
Arguments Raised {A} e.
Arguments Diverged {A}.

Definition M (A : Type) : Type := world → outcome A * world.

#[export] Instance M_ret : MRet M := λ A a w, (Returned a, w).

#[export] Instance M_bind : MBind M := λ A B f m w,
  match m w with
  | (Returned a, w') => f a w'
  | (Raised e, w') => (Raised e, w')
  | (Diverged, w') => (Diverged, w')
  end.

Definition raise {A} (e : exn) : M A := λ w, (Raised e, w).

(** Computations that touch neither the clock nor the network run in
    [outcome] alone and are lifted. *)
#[export] Instance outcome_ret : MRet outcome := λ A a, Returned a.

#[export] Instance outcome_bind : MBind outcome := λ A B f o,
  match o with
  | Returned a => f a
  | Raised e => Raised e
  | Diverged => Diverged
  end.

Definition lift {A} (o : outcome A) : M A := λ w, (o, w).

Definition diverge {A} : M A := λ w, (Diverged, w).

(** [try: body except Exception as e: handler e]. *)
Definition try_except {A} (body : M A) (handler : exn → M A) : M A := λ w,
  match body w with
  | (Raised e, w') => handler e w'
  | r => r
  end.

(** [time.time()]. *)
Definition time : M Q := λ w, (Returned (now w), w).

(** The longest sleep, in whole seconds, that [time.sleep] takes.  The
    length is turned into nanoseconds in a signed 64-bit integer, and
    [9223372036 * 10^9] is the last multiple of a second that fits. *)
Definition max_sleep : Z := 9223372036.

(** [time.sleep(seconds)] for an integer length: a length whose
    nanoseconds do not fit, on either side of zero, raises [OverflowError]
    at the conversion; a negative length that fits raises [ValueError]. *)
Definition sleep (seconds : Z) : M unit := λ w,
  if ((seconds <? - max_sleep) || (max_sleep <? seconds))%Z then (Raised OverflowError, w)
  else if (seconds <? 0)%Z then (Raised ValueError, w)
  else (Returned tt, after_sleep w seconds).

(** What a loop body tells its loop: go on with a new loop state, or leave
    the enclosing function with a value ([return] inside the loop). *)
Inductive flow (S A : Type) :=
| Continue (s : S)
| Return (a : A).
Arguments Continue {S A} s.
Arguments Return {S A} a.

(** [for x in xs: body]. *)
Fixpoint for_each {X A} (xs : list X) (body : X → M (flow unit A)) : M (flow unit A) :=
  match xs with
  | [] => mret (Continue tt)
  | x :: xs' =>
      r ← body x;
      match r with
      | Continue _ => for_each xs' body
      | Return a => mret (Return a)
      end
  end.

(** [while cond: body], with the loop variables in [s]. *)
Fixpoint while {S A} (fuel : nat) (cond : S → M bool) (body : S → M (flow S A))
    (s : S) : M (flow S A) :=
  c ← cond s;
  if c : bool then
    match fuel with
    | O => diverge
    | Datatypes.S fuel' =>
        r ← body s;
        match r with
        | Continue s' => while fuel' cond body s'
        | Return a => mret (Return a)
        end
    end
  else mret (Continue s).

(** [x < y] on clock readings. *)
Definition Qltb (x y : Q) : bool := negb (Qle_bool y x).

(** [response.json()]. *)
Definition response_json (r : response) : outcome json :=
  match json_body r with
  | Some j => Returned j
  | None => Raised JSONDecodeError
  end.

(** [d.get(key, default)]: only a dict has the method. *)
Definition dict_get (d : json) (key : string) (dflt : json) : outcome json :=
  match d with
  | JObj m => Returned (default dflt (m !! key))
  | _ => Raised AttributeError
  end.

(** [v.replace(old, new)]: only a string has the method. *)
Definition str_replace (v : json) (old : ascii) (new : string) : outcome json :=
  match v with
  | JStr s => Returned (JStr (Py.replace old new s))
  | _ => Raised AttributeError
  end.

(** ** Observations on traces *)

#[export] Instance method_eq_dec : EqDecision method.
Proof. solve_decision. Defined.

(** The event is a call of method [m] on the session. *)
Definition is_call (m : method) (e : event) : bool :=
  match e with
  | ERequest r => bool_decide (meth r = m)
  | ESleep _ => false
  end.

(** How many calls of method [m] the trace holds. *)
Definition calls (m : method) (tr : list event) : nat :=
  length (List.filter (is_call m) tr).

(** The lengths of the sleeps of the trace, in order. *)
Definition sleeps (tr : list event) : list Z :=
  omap (λ e, match e with ESleep d => Some d | ERequest _ => None end) tr.

(** ** The methods *)


Section SharePointAccess.

(** The remote side: history and request to (duration of the call, reply). *)
Variable transport : list event → request → Q * reply.

(** [self._headers], fixed when the client is built. *)
Variable _headers : gmap string string.

(** [urllib.parse.quote]. *)
Variable quote : string → string.

(** A call on [self._session]: it takes its time, is recorded, and either
    raises or hands back the response. *)
Definition send (req : request) : M response := λ w,
  let '(duration, rep) := transport (trace w) req in
  let w' := after_call w duration req in
  match rep with
  | Raises e => (Raised e, w')
  | Responds r => (Returned r, w')
  end.

(** The requests of [self._session.get(url=u, headers=self._headers)] and
    of its [post] and [patch(..., json=body)] siblings. *)
Definition get_request (u : string) : request :=
  {| meth := GET; url := u; req_headers := _headers; req_json := None |}.

Definition post_request (u : string) : request :=
  {| meth := POST; url := u; req_headers := _headers; req_json := None |}.

Definition patch_request (u : string) (body : json) : request :=
  {| meth := PATCH; url := u; req_headers := _headers; req_json := Some body |}.

Definition session_get (u : string) : M response := send (get_request u).

Definition session_post (u : string) : M response := send (post_request u).

Definition session_patch (u : string) (body : json) : M response :=
  send (patch_request u body).

(** *** wait_for_file (lines 360-394) *)

Definition file_endpoint (site_id drive_id folder_path file_name : string) : string :=
  "https://graph.microsoft.com/v1.0/sites/" +:+ site_id +:+ "/drives/" +:+ drive_id
    +:+ "/root:/" +:+ folder_path +:+ "/" +:+ file_name.

(** The dict built by the [return] statement from the decoded body. *)
Definition file_metadata (data : json) : outcome (gmap string json) :=
  id ← dict_get data "id" JNull;
  name ← dict_get data "name" JNull;
  created ← dict_get data "createdDateTime" (JStr EmptyString);
  created ← str_replace created "T"%char " ";
  created ← str_replace created "Z"%char EmptyString;
  webUrl ← dict_get data "webUrl" JNull;
  mret (<["id" := id]> (<["name" := name]>
         (<["createdDateTime" := created]> (<["webUrl" := webUrl]> ∅)))).

(** One lookup: the [try] block of the loop.  [Return] is the [return]
    inside it, [Continue] falls through to the sleep. *)
Definition lookup (endpoint : string) : M (flow unit (gmap string json)) :=
  try_except
    (response ← session_get endpoint;
     if ok response then
       data ← lift (response_json response);
       meta ← lift (file_metadata data);
       mret (Return meta)
     else mret (Continue tt))
    (λ e, mret (Continue tt)).

Definition timeout_message (file_name folder_path : string) : string :=
  "Timeout waiting for file '" +:+ file_name +:+ "' in '" +:+ folder_path +:+ "'.".

(** The loop test [time.time() - start_time < timeout]. *)
Definition within_timeout (start_time : Q) (timeout : Z) (_ : unit) : M bool :=
  t ← time;
  mret (Qltb (t - start_time)%Q (inject_Z timeout)).

(** The loop body: one lookup, then the sleep unless the lookup returned. *)
Definition poll_round (endpoint : string) (poll_interval : Z) (_ : unit)
    : M (flow unit (gmap string json)) :=
  found ← lookup endpoint;
  match found with
  | Return meta => mret (Return meta)
  | Continue _ => sleep poll_interval;; mret (Continue tt)
  end.

Definition wait_for_file (fuel : nat) (site_id drive_id folder_path file_name : string)
    (timeout poll_interval : Z) : M (gmap string json) :=
  let endpoint := file_endpoint site_id drive_id folder_path file_name in
  start_time ← time;
  r ← while fuel (within_timeout start_time timeout) (poll_round endpoint poll_interval) tt;
  match r with
  | Return meta => mret meta
  | Continue _ => raise (PyException (timeout_message file_name folder_path))
  end.

(** *** update_range_data (lines 466-493) *)

Definition update_endpoint (site_id drive_id new_item_id raw_data_sheet_name update_range : string)
    : string :=
  "https://graph.microsoft.com/v1.0/sites/" +:+ site_id +:+ "/drives/" +:+ drive_id
    +:+ "/items/" +:+ new_item_id +:+ "/workbook/worksheets('" +:+ raw_data_sheet_name
    +:+ "')/range(address='" +:+ update_range +:+ "')".

(** The retryable test of [update_range_data]. *)
Definition update_retryable (r : response) : bool :=
  (status_code r =? 429)%Z || Py.contains "MaxRequestDurationExceeded" (text r).

(** [int(retry_after) if retry_after and retry_after.isdigit() else (2 ** attempt)]. *)
Definition wait_time (retry_after : option string) (attempt : Z) : outcome Z :=
  match retry_after with
  | Some s =>
      if Py.truthy s && Py.isdigit s then
        match Py.int s with
        | Some n => Returned n
        | None => Raised ValueError
        end
      else Returned (2 ^ attempt)%Z
  | None => Returned (2 ^ attempt)%Z
  end.

Definition update_failed_message (start end_ : Z) (response_text : string) : string :=
  "Failed to update rows " +:+ Py.str (start + 1) +:+ " to " +:+ Py.str end_ +:+ ": "
    +:+ response_text.

Definition update_exhausted_message (start end_ max_retries : Z) : string :=
  "Failed to update rows " +:+ Py.str (start + 1) +:+ " to " +:+ Py.str end_ +:+ " after "
    +:+ Py.str max_retries +:+ " attempts.".

(** The body of the [for attempt in range(max_retries)] loop. *)
Definition update_attempt (endpoint : string) (updated_body : json) (start end_ : Z)
    (attempt : Z) : M (flow unit bool) :=
  response ← session_patch endpoint updated_body;
  if ok response then mret (Return true)
  else if update_retryable response then
    let retry_after := headers response !! "Retry-After" in
    seconds ← lift (wait_time retry_after attempt);
    sleep seconds;;
    mret (Continue tt)
  else raise (PyException (update_failed_message start end_ (text response))).

Definition update_range_data
    (site_id drive_id new_item_id raw_data_sheet_name update_range : string)
    (chunk_data : list json) (start end_ : Z) (max_retries : Z) : M bool :=
  let endpoint :=
    update_endpoint site_id drive_id new_item_id raw_data_sheet_name update_range in
  let updated_body := JObj {["values" := JArr chunk_data]} in
  r ← for_each (Py.range max_retries) (update_attempt endpoint updated_body start end_);
  match r with
  | Return b => mret b
  | Continue _ => raise (PyException (update_exhausted_message start end_ max_retries))
  end.

(** *** refresh_pivot_table (lines 496-550) *)

Definition refresh_pivot_endpoint (site_id drive_id item_id encoded_sheet_name : string) : string :=
  "https://graph.microsoft.com/v1.0/sites/" +:+ site_id +:+ "/drives/" +:+ drive_id
    +:+ "/items/" +:+ item_id +:+ "/workbook/worksheets('" +:+ encoded_sheet_name
    +:+ "')/pivotTables/refreshAll".

Definition pivot_tables_endpoint (site_id drive_id item_id encoded_sheet_name : string) : string :=
  "https://graph.microsoft.com/v1.0/sites/" +:+ site_id +:+ "/drives/" +:+ drive_id
    +:+ "/items/" +:+ item_id +:+ "/workbook/worksheets('" +:+ encoded_sheet_name
    +:+ "')/pivotTables".

(** The diagnostic read: a GET of the pivot tables, decoded when it is ok.
    Nothing catches what the GET or the decoding raises. *)
Definition diagnostic_read (endpoint : string) : M unit :=
  diagnostic_resp ← session_get endpoint;
  if ok diagnostic_resp then
    pivot_tables ← lift (response_json diagnostic_resp);
    mret tt
  else mret tt.

Definition refresh_failed_message (response_text : string) : string :=
  "Failed to refresh Pivot Table: " +:+ response_text.

Definition refresh_exhausted_message (last_refresh_error : option string) : string :=
  "Max retry attempts reached. The pivot table refresh could not be completed. Last error: "
    +:+ Py.str_opt last_refresh_error.

(** The retryable test of both refresh methods. *)
Definition refresh_retryable (r : response) : bool :=
  Py.contains "MaxRequestDurationExceeded" (text r).

(** The body of the [while retry_count < max_retries] loop; the loop
    variables are [retry_count] and [last_refresh_error]. *)
Definition refresh_attempt (endpoint diagnostics : string) (s : Z * option string)
    : M (flow (Z * option string) unit) :=
  let '(retry_count, _) := s in
  refresh_resp ← session_post endpoint;
  if ok refresh_resp then mret (Return tt)
  else
    let response_text := text refresh_resp in
    let last_refresh_error := Some response_text in
    if refresh_retryable refresh_resp then
      let retry_count := (retry_count + 1)%Z in
      let seconds := (2 ^ retry_count)%Z in
      sleep seconds;;
      mret (Continue (retry_count, last_refresh_error))
    else
      diagnostic_read diagnostics;;
      raise (PyException (refresh_failed_message response_text)).

Definition refresh_pivot_table (site_id drive_id item_id pivot_table_sheet : string)
    (max_retries : Z) : M unit :=
  let encoded_sheet_name := quote pivot_table_sheet in
  let endpoint := refresh_pivot_endpoint site_id drive_id item_id encoded_sheet_name in
  let diagnostics := pivot_tables_endpoint site_id drive_id item_id encoded_sheet_name in
  r ← while (Z.to_nat max_retries)
        (λ s, mret (fst s <? max_retries)%Z)
        (refresh_attempt endpoint diagnostics)
        (0%Z, None);
  match r with
  | Return _ => mret tt
  | Continue (_, last_refresh_error) =>
      diagnostic_read diagnostics;;
      raise (PyException (refresh_exhausted_message last_refresh_error))
  end.

(** *** refresh_individual_pivot_table (lines 552-600) *)




(** *** update_chunks (section 4.3 of the spec) *)


End SharePointAccess.

(** ** Vocabulary of the statements *)

(** The [Retry-After] value of the response, if it passes [isdigit], is
    made of decimal digits only, and of no more than [int] takes, so that
    [int] accepts it. *)
Definition hint_well_formed (r : response) : bool :=
  match headers r !! "Retry-After" with
  | Some h =>
      negb (Py.isdigit h)
      || (Py.all_chars Py.is_decimal h && (String.length h <=? Py.max_str_digits)%nat)
  | None => true
  end.

(** The wait the amended claim names for a retry of [update_range_data]:
    the hint when there is one that passes [isdigit], else two to the power
    of the attempt number. *)
Definition hinted_wait (r : response) (attempt : Z) : Z :=
  match headers r !! "Retry-After" with
  | Some h => if Py.isdigit h then Py.int_digits 0 h else (2 ^ attempt)%Z
  | None => (2 ^ attempt)%Z
  end.

(** The length is one that [time.sleep] takes. *)
Definition can_sleep (seconds : Z) : bool := (0 <=? seconds)%Z && (seconds <=? max_sleep)%Z.

(** What [time.sleep] raises for a length that it does not take. *)
Definition sleep_error (seconds : Z) : exn :=
  if ((seconds <? - max_sleep) || (max_sleep <? seconds))%Z then OverflowError
  else ValueError.





(** The event belongs to the retry loop on request [req]: the request
    itself or a sleep. *)
Definition emitted_for (req : request) (e : event) : Prop :=
  e = ERequest req ∨ ∃ s, e = ESleep s.

(** The PATCH request that [update_range_data] issues on every attempt. *)
Definition update_request (_headers : gmap string string)
    (site_id drive_id new_item_id raw_data_sheet_name update_range : string)
    (chunk_data : list json) : request :=
  patch_request _headers
    (update_endpoint site_id drive_id new_item_id raw_data_sheet_name update_range)
    (JObj {["values" := JArr chunk_data]}).



(** What the diagnostic read raises on this reply when it does not go
    through. *)
Definition diagnostic_failure (rep : reply) : option exn :=
  match rep with
  | Raises e => Some e
  | Responds r =>
      if ok r then match json_body r with Some _ => None | None => Some JSONDecodeError end
      else None
  end.


(** The POST that [refresh_pivot_table] issues on every attempt, and the
    GET of its diagnostic read. *)
Definition refresh_request (_headers : gmap string string) (quote : string → string)
    (site_id drive_id item_id pivot_table_sheet : string) : request :=
  post_request _headers
    (refresh_pivot_endpoint site_id drive_id item_id (quote pivot_table_sheet)).

Definition diagnostic_request (_headers : gmap string string) (quote : string → string)
    (site_id drive_id item_id pivot_table_sheet : string) : request :=
  get_request _headers
    (pivot_tables_endpoint site_id drive_id item_id (quote pivot_table_sheet)).

(** The waits of [n] rounds of the refresh loops: 2, 4, 8, ... *)
Definition refresh_backoff (n : nat) : list Z :=
  map (λ i, 2 ^ (Z.of_nat i + 1))%Z (seq 0 n).



(** What a lookup of [wait_for_file] finds in a reply: the metadata when
    the GET answers ok with a body that decodes to a dict whose
    [createdDateTime], if any, is a string; nothing otherwise. *)
Definition found (rep : reply) : option (gmap string json) :=
  match rep with
  | Raises _ => None
  | Responds r =>
      if ok r then
        match response_json r with
        | Returned data =>
            match file_metadata data with
            | Returned meta => Some meta
            | _ => None
            end
        | _ => None
        end
      else None
  end.

(** The GET that [wait_for_file] issues on every lookup. *)
Definition file_request (_headers : gmap string string)
    (site_id drive_id folder_path file_name : string) : request :=
  get_request _headers (file_endpoint site_id drive_id folder_path file_name).





(** ** Concrete worlds and remote sides *)

Module Scenario.

(** A fresh world: clock at zero, nothing done yet. *)
Definition w0 : world := {| now := 0; trace := [] |}.

(** [urllib.parse.quote] leaves the letters of these sheet names alone. *)
Definition quote_plain (s : string) : string := s.

Definition rate_limited : response :=
  {| status_code := 429; text := "Too Many Requests"; headers := ∅; json_body := None |}.

(** A duration-exceeded failure that also carries a [Retry-After] hint. *)
Definition duration_exceeded : response :=
  {| status_code := 504;
     text := "MaxRequestDurationExceeded: the request took too long";
     headers := {["Retry-After" := "0"]};
     json_body := None |}.

Definition rate_limited_after (hint : string) : response :=
  {| status_code := 429; text := "Too Many Requests";
     headers := {["Retry-After" := hint]}; json_body := None |}.

Definition not_found : response :=
  {| status_code := 404; text := "itemNotFound"; headers := ∅; json_body := None |}.

Definition updated : response :=
  {| status_code := 200; text := "updated"; headers := ∅;
     json_body := Some (JObj ∅) |}.


(** An ok answer whose body is not JSON. *)
Definition gateway_page : response :=
  {| status_code := 200; text := "<html>"; headers := ∅; json_body := None |}.

Definition file_item : response :=
  {| status_code := 200; text := "item"; headers := ∅;
     json_body := Some (JObj {["id" := JStr "42"; "name" := JStr "report.xlsx";
                               "createdDateTime" := JStr "2024-01-02T03:04:05Z"]}) |}.

(** The superscript two, which passes [isdigit] and which [int] refuses. *)
Definition superscript_two : string := String (ascii_of_nat 178) EmptyString.

(** Every call takes no time and gets the answer picked by its method. *)
Definition by_method (on_get on_post on_patch : reply) : list event → request → Q * reply :=
  λ _ req,
    (0%Q, match meth req with GET => on_get | POST => on_post | PATCH => on_patch end).






End Scenario.

(** * The single-call methods

    The methods of the class that issue one or two calls and no retry:
    [__connect_to_site], [get_site_id], [set_range_number_format],
    [download_file_content], [clear_worksheet_range] and
    [list_pivot_tables]. *)

(** ** More of Python *)

Module PyExt.

(** The part of [s] before the first [sep], and the part after it when
    there is a [sep]. *)
Fixpoint cut (sep : ascii) (s : string) : string * option string :=
  match s with
  | EmptyString => (EmptyString, None)
  | String c s' =>
      if Ascii.eqb c sep then (EmptyString, Some s')
      else let '(before, after) := cut sep s' in (String c before, after)
  end.

(** [s.split(sep, 1)] for a one-character [sep]: one piece when [sep] does
    not occur, else the two pieces around its first occurrence. *)
Definition split_once (sep : ascii) (s : string) : list string :=
  match cut sep s with
  | (before, Some after) => [before; after]
  | (before, None) => [before]
  end.

(** [bool(v)] for a decoded JSON value: [None], [False], zero and the
    empty string, list and dict are falsy. *)
Definition truthy (v : json) : bool :=
  match v with
  | JNull => false
  | JBool b => b
  | JNum q => negb (Qeq_bool q 0)
  | JStr s => Py.truthy s
  | JArr l => match l with [] => false | _ => true end
  | JObj m => negb (Nat.eqb (size m) 0)
  end.

(** [x in [a, b]] on integers. *)
Definition in_list (x : Z) (l : list Z) : bool := existsb (Z.eqb x) l.

End PyExt.

(** The exceptions of the single-call methods: those of the loops, and the
    two that [in] and indexing add. *)
Inductive pyexn :=
| Builtin (e : exn)
| TypeError                       (* [x in v] on a value that is not iterable *)
| IndexError.                     (* an index past the end of a list *)

Inductive xoutcome (A : Type) :=
| Done (a : A)
| Failed (e : pyexn)
| Unfinished.                     (* a lifted computation ran out of fuel *)
Arguments Done {A} a.
Arguments Failed {A} e.
Arguments Unfinished {A}.

Definition MX (A : Type) : Type := world → xoutcome A * world.

#[export] Instance MX_ret : MRet MX := λ A a w, (Done a, w).

#[export] Instance MX_bind : MBind MX := λ A B f m w,
  match m w with
  | (Done a, w') => f a w'
  | (Failed e, w') => (Failed e, w')
  | (Unfinished, w') => (Unfinished, w')
  end.

Definition xraise {A} (e : pyexn) : MX A := λ w, (Failed e, w).

(** A computation of the loops' monad inside the richer one. *)
Definition liftM {A} (m : M A) : MX A := λ w,
  match m w with
  | (Returned a, w') => (Done a, w')
  | (Raised e, w') => (Failed (Builtin e), w')
  | (Diverged, w') => (Unfinished, w')
  end.

(** [needle in v] for a string [needle]: a substring test on a string, a
    membership test on a list, a key test on a dict, a [TypeError] on
    anything else. *)
Definition str_in (needle : string) (v : json) : MX bool :=
  match v with
  | JStr s => mret (Py.contains needle s)
  | JArr l =>
      mret (existsb (λ x, match x with JStr s => String.eqb s needle | _ => false end) l)
  | JObj m => mret (bool_decide (is_Some (m !! needle)))
  | _ => xraise TypeError
  end.

(** [v.split(",", 1)[1]]: only a string has the method, and the list it
    gives has an index 1 only when there was a comma. *)
Definition split_second (v : json) : MX json :=
  match v with
  | JStr s =>
      match PyExt.split_once ","%char s !! 1%nat with
      | Some piece => mret (JStr piece)
      | None => xraise IndexError
      end
  | _ => xraise (Builtin AttributeError)
  end.

Section SingleCalls.

Variable transport : list event → request → Q * reply.
Variable _headers : gmap string string.
Variable quote : string → string.

(** The [isinstance] tests of the three [except] clauses of
    [__connect_to_site] against the classes of [requests.exceptions], and
    [str(e)] of an exception. *)
Variable is_connection_error is_timeout is_http_error : exn → bool.
Variable exn_str : exn → string.

(** [str(v)] of a number, list or dict inside an f-string. *)
Variable repr_other : json → string.

(** [response.content], the raw bytes of the body. *)
Variable content : response → list Byte.byte.

(** A decoded JSON value inside an f-string. *)
Definition format_value (v : json) : string :=
  match v with
  | JStr s => s
  | JNull => "None"
  | JBool true => "True"
  | JBool false => "False"
  | _ => repr_other v
  end.

(** *** __connect_to_site (lines 92-123) *)

(** The three [except] clauses, tried in order; an exception that matches
    none goes on unchanged. *)
Definition connect_handler (e : exn) : M response :=
  if is_connection_error e then raise (PyException ("Connection error: " +:+ exn_str e))
  else if is_timeout e then raise (PyException ("Timeout: " +:+ exn_str e))
  else if is_http_error e then raise (PyException ("HTTP Error: " +:+ exn_str e))
  else raise e.

Definition __connect_to_site (u : string) : M response :=
  response ← try_except (session_get transport _headers u) connect_handler;
  if (status_code response =? 400)%Z then raise (PyException "Bad Request")
  else if (status_code response =? 401)%Z then raise (PyException "Unauthorized")
  else if (status_code response =? 404)%Z then
    raise (PyException ("Not found: " +:+ Py.str (status_code response)))
  else mret response.

(** *** get_site_id (lines 126-143) *)

Definition site_url (sharepoint_domain sharepoint_site_name : string) : string :=
  "https://graph.microsoft.com/v1.0/sites/" +:+ sharepoint_domain +:+ ":"
    +:+ sharepoint_site_name.

Definition get_site_id (sharepoint_domain sharepoint_site_name : string) : MX json :=
  let u := site_url sharepoint_domain sharepoint_site_name in
  response ← liftM (__connect_to_site u);
  data ← liftM (lift (response_json response));
  site_id ← liftM (lift (dict_get data "id" JNull));
  if negb (PyExt.truthy site_id) then
    xraise (Builtin (PyException "Site ID not found in response."))
  else
    has_comma ← str_in "," site_id;
    if has_comma : bool then split_second site_id else mret site_id.

(** *** set_range_number_format (lines 160-194) *)

Definition format_endpoint (site_id drive_id item_id raw_data_sheet_name range_address : string)
    : string :=
  "https://graph.microsoft.com/v1.0/sites/" +:+ site_id +:+ "/drives/" +:+ drive_id
    +:+ "/items/" +:+ item_id +:+ "/workbook/worksheets('" +:+ raw_data_sheet_name
    +:+ "')/range(address='" +:+ range_address +:+ "')/format".

Definition format_failed_message (r : response) : string :=
  "Format update failed: " +:+ Py.str (status_code r) +:+ ", " +:+ text r.

Definition set_range_number_format
    (site_id drive_id item_id raw_data_sheet_name range_address number_format : string)
    : M unit :=
  let endpoint :=
    format_endpoint site_id drive_id item_id raw_data_sheet_name range_address in
  let body := JObj {["numberFormat" := JObj {["format" := JStr number_format]}]} in
  response ← session_patch transport _headers endpoint body;
  if (status_code response =? 200)%Z then mret tt
  else raise (PyException (format_failed_message response)).

(** *** download_file_content (lines 396-421) *)

Definition download_endpoint (site_id drive_id : string) (item_id : json) : string :=
  "https://graph.microsoft.com/v1.0/sites/" +:+ site_id +:+ "/drives/" +:+ drive_id
    +:+ "/items/" +:+ format_value item_id +:+ "/content".

Definition locate_failed_message (file_name response_text : string) : string :=
  "Failed to locate file '" +:+ file_name +:+ "': " +:+ response_text.

Definition download_failed_message (file_name response_text : string) : string :=
  "Failed to download file '" +:+ file_name +:+ "': " +:+ response_text.

Definition download_file_content (site_id drive_id folder_path file_name : string)
    : M (list Byte.byte) :=
  let endpoint := file_endpoint site_id drive_id folder_path file_name in
  response ← session_get transport _headers endpoint;
  if negb (ok response) then
    raise (PyException (locate_failed_message file_name (text response)))
  else
    data ← lift (response_json response);
    item_id ← lift (dict_get data "id" JNull);
    download_resp ← session_get transport _headers (download_endpoint site_id drive_id item_id);
    if negb (ok download_resp) then
      raise (PyException (download_failed_message file_name (text download_resp)))
    else mret (content download_resp).

(** *** clear_worksheet_range (lines 443-464) *)

Definition clear_endpoint (site_id drive_id item_id raw_data_sheet_name clear_range : string)
    : string :=
  "https://graph.microsoft.com/v1.0/sites/" +:+ site_id +:+ "/drives/" +:+ drive_id
    +:+ "/items/" +:+ item_id +:+ "/workbook/worksheets('" +:+ raw_data_sheet_name
    +:+ "')/range(address='" +:+ clear_range +:+ "')/clear".

Definition clear_failed_message (r : response) : string :=
  "Failed to clear sheet: " +:+ Py.str (status_code r) +:+ ", " +:+ text r.

Definition clear_worksheet_range
    (site_id drive_id item_id raw_data_sheet_name clear_range : string) : M unit :=
  let endpoint := clear_endpoint site_id drive_id item_id raw_data_sheet_name clear_range in
  response ← session_post transport _headers endpoint;
  if PyExt.in_list (status_code response) [200; 204]%Z then mret tt
  else raise (PyException (clear_failed_message response)).

(** *** list_pivot_tables (lines 602-612) *)

Definition listing_failed_message (r : response) : string :=
  "Error listing pivot tables: " +:+ Py.str (status_code r) +:+ ", " +:+ text r.

Definition list_pivot_tables (site_id drive_id item_id worksheet_name : string) : M json :=
  let encoded_sheet_name := quote worksheet_name in
  let endpoint := pivot_tables_endpoint site_id drive_id item_id encoded_sheet_name in
  response ← session_get transport _headers endpoint;
  if ok response then lift (response_json response)
  else raise (PyException (listing_failed_message response)).

End SingleCalls.

(** ** Vocabulary of the further statements *)

(** The seconds slept along a trace. *)
Definition total_sleep (tr : list event) : Z := foldr Z.add 0%Z (sleeps tr).

(** No character of the string is [c]. *)
Definition free_of (c : ascii) (s : string) : bool :=
  Py.all_chars (λ x, negb (Ascii.eqb x c)) s.

(** The answer is a failure that [update_range_data] retries and that
    carries no [Retry-After] header. *)
Definition retryable_without_hint (rep : reply) : Prop :=
  ∃ r, rep = Responds r ∧ ok r = false ∧ update_retryable r = true
       ∧ headers r !! "Retry-After" = None.


(** The answer is a failure that the refresh methods retry. *)
Definition duration_failure (rep : reply) : Prop :=
  ∃ r, rep = Responds r ∧ ok r = false ∧ refresh_retryable r = true.

(** The answer is an ok response. *)
Definition success (rep : reply) : Prop := ∃ r, rep = Responds r ∧ ok r = true.

(** What [__connect_to_site] raises when its GET raises [e]. *)
Definition translated (is_connection_error is_timeout is_http_error : exn → bool)
    (exn_str : exn → string) (e : exn) : exn :=
  if is_connection_error e then PyException ("Connection error: " +:+ exn_str e)
  else if is_timeout e then PyException ("Timeout: " +:+ exn_str e)
  else if is_http_error e then PyException ("HTTP Error: " +:+ exn_str e)
  else e.

(** The status is one that [__connect_to_site] lets through. *)
Definition passes (r : response) : Prop :=
  status_code r ≠ 400%Z ∧ status_code r ≠ 401%Z ∧ status_code r ≠ 404%Z.

(** ** Concrete cases for the single-call methods *)

Module Cases.

(** A connect timeout is both a [ConnectionError] and a [Timeout]. *)
Definition connect_timeout : exn := TransportError "connect timeout".
Definition read_timeout : exn := TransportError "read timeout".
Definition too_many_redirects : exn := TransportError "too many redirects".

Definition message_of (e : exn) : string :=
  match e with
  | TransportError msg => msg
  | PyException msg => msg
  | _ => EmptyString
  end.

Definition is_connection_error (e : exn) : bool :=
  String.eqb (message_of e) "connect timeout"
  || String.eqb (message_of e) "connection reset".

Definition is_timeout (e : exn) : bool :=
  String.eqb (message_of e) "connect timeout" || String.eqb (message_of e) "read timeout".

Definition is_http_error (e : exn) : bool := String.eqb (message_of e) "bad status".

(** Numbers, lists and dicts do not occur in these cases. *)
Definition repr_other (v : json) : string := "?".

Definition content (r : response) : list Byte.byte :=
  if String.eqb (text r) "bytes" then [Byte.x50; Byte.x4b] else [].

Definition site (id : json) : response :=
  {| status_code := 200; text := "site"; headers := ∅;
     json_body := Some (JObj {["id" := id]}) |}.

Definition forbidden : response :=
  {| status_code := 403; text := "accessDenied"; headers := ∅;
     json_body := Some (JObj {["error" := JStr "accessDenied"]}) |}.

Definition no_content : response :=
  {| status_code := 204; text := EmptyString; headers := ∅; json_body := None |}.

Definition accepted : response :=
  {| status_code := 202; text := "queued"; headers := ∅; json_body := None |}.

Definition item_without_id : response :=
  {| status_code := 200; text := "item"; headers := ∅;
     json_body := Some (JObj {["name" := JStr "report.xlsx"]}) |}.


Definition file_bytes : response :=
  {| status_code := 200; text := "bytes"; headers := ∅; json_body := None |}.

(** Every call takes no time and gets the same reply. *)
Definition always (rep : reply) : list event → request → Q * reply := λ _ _, (0%Q, rep).

(** The first [k] calls of a method get the reply [before], the later ones
    [after]. *)
Definition after_failures (k : nat) (before after : reply) : list event → request → Q * reply :=
  λ h req, (0%Q, if (calls (meth req) h <? k)%nat then before else after).

(** The metadata request is answered with [first] and any other request
    with [second]. *)
Definition locate_then (first second : reply) : list event → request → Q * reply :=
  λ _ req,
    (0%Q, if String.eqb (url req) (file_endpoint "site" "drive" "folder" "report.xlsx")
          then first else second).

End Cases.

(** * Properties *)

(** ** Strings *)

Lemma prefix_append (n s : string) : String.prefix n (n +:+ s) = true.
Proof.
  induction n as [|c n IH]; simpl.
  - by destruct s.
  - destruct (ascii_dec c c); [exact IH | congruence].
Qed.

Lemma contains_prefix (n s : string) : String.prefix n s = true → Py.contains n s = true.
Proof. intros H. destruct s; cbn [Py.contains]; rewrite H; reflexivity. Qed.

Lemma contains_here (n s : string) : Py.contains n (n +:+ s) = true.
Proof. apply contains_prefix, prefix_append. Qed.

Lemma contains_later (n a s : string) :
  Py.contains n s = true → Py.contains n (a +:+ s) = true.
Proof.
  intros H. induction a as [|c a IH]; simpl; [exact H|].
  rewrite IH. apply orb_true_r.
Qed.

(** A needle placed anywhere inside a string is found. *)
Lemma contains_middle (n a b : string) : Py.contains n (a +:+ n +:+ b) = true.
Proof. apply contains_later, contains_here. Qed.

Lemma int_digits_nonneg (s : string) (acc : Z) :
  (0 <= acc)%Z → Py.all_chars Py.is_decimal s = true → (0 <= Py.int_digits acc s)%Z.
Proof.
  revert acc. induction s as [|c s IH]; simpl; intros acc Hacc Hs; [exact Hacc|].
  apply andb_true_iff in Hs as [Hc Hs]. apply IH; [|exact Hs].
  unfold Py.is_decimal in Hc. apply andb_true_iff in Hc as [Hlo _].
  apply N.leb_le in Hlo. lia.
Qed.

Lemma int_nonneg (s : string) (n : Z) : Py.int s = Some n → (0 <= n)%Z.
Proof.
  unfold Py.int.
  destruct (Py.truthy s && Py.all_chars Py.is_decimal s
            && (String.length s <=? Py.max_str_digits)%nat) eqn:E; [|discriminate].
  intros [= <-]. apply andb_true_iff in E as [E _]. apply andb_true_iff in E as [_ E].
  by apply int_digits_nonneg.
Qed.



Lemma contains_self (n : string) : Py.contains n n = true.
Proof.
  apply contains_prefix. induction n as [|c n IH]; simpl; [done|].
  destruct (ascii_dec c c); [exact IH | congruence].
Qed.

Lemma contains_end (n a : string) : Py.contains n (a +:+ n) = true.
Proof. apply contains_later, contains_self. Qed.

(** ** Error messages *)






(** ** Clock comparisons *)

Lemma Qltb_true (x y : Q) : Qltb x y = true ↔ (x < y)%Q.
Proof.
  unfold Qltb. rewrite negb_true_iff. split.
  - intros H. apply Qnot_le_lt. intros Hle. apply Qle_bool_iff in Hle. congruence.
  - intros H. destruct (Qle_bool y x) eqn:E; [|done].
    apply Qle_bool_iff in E. exfalso. by apply (Qlt_not_le x y).
Qed.

Lemma Qltb_false (x y : Q) : Qltb x y = false ↔ (y <= x)%Q.
Proof.
  unfold Qltb. rewrite negb_false_iff. apply Qle_bool_iff.
Qed.

(** ** Traces *)

Lemma calls_app (m : method) (tr1 tr2 : list event) :
  calls m (tr1 ++ tr2) = (calls m tr1 + calls m tr2)%nat.
Proof. unfold calls. by rewrite List.filter_app, length_app. Qed.

Lemma calls_cons (m : method) (e : event) (tr : list event) :
  calls m (e :: tr) = ((if is_call m e then 1 else 0) + calls m tr)%nat.
Proof. unfold calls. simpl. by destruct (is_call m e). Qed.

Lemma sleeps_app (tr1 tr2 : list event) : sleeps (tr1 ++ tr2) = sleeps tr1 ++ sleeps tr2.
Proof. unfold sleeps. apply omap_app. Qed.

(** ** Running the methods *)

Section Properties.

Context (transport : list event → request → Q * reply).
Context (_headers : gmap string string).
Context (quote : string → string).

Lemma send_eq (req : request) (w : world) :
  send transport req w =
  (match (transport (trace w) req).2 with
   | Raises e => Raised e
   | Responds r => Returned r
   end, after_call w (transport (trace w) req).1 req).
Proof.
  unfold send, after_call. destruct (transport (trace w) req) as [d [e|r]]; reflexivity.
Qed.

Lemma sleep_cases (s : Z) (w : world) :
  sleep s w
  = if can_sleep s then (Returned tt, after_sleep w s) else (Raised (sleep_error s), w).
Proof.
  unfold sleep, can_sleep, sleep_error.
  destruct (Z.ltb_spec s (- max_sleep)), (Z.ltb_spec max_sleep s), (Z.ltb_spec s 0),
    (Z.leb_spec 0 s), (Z.leb_spec s max_sleep); simpl; try reflexivity;
    unfold max_sleep in *; lia.
Qed.

Lemma can_sleep_spec (s : Z) : can_sleep s = true ↔ (0 <= s <= max_sleep)%Z.
Proof. unfold can_sleep. rewrite andb_true_iff, Z.leb_le, Z.leb_le. tauto. Qed.

Lemma sleep_eq (s : Z) (w : world) :
  can_sleep s = true → sleep s w = (Returned tt, after_sleep w s).
Proof. intros Hs. by rewrite sleep_cases, Hs. Qed.

(** What [time.sleep] raises: [ValueError] below zero, [OverflowError]
    beyond the longest sleep on either side. *)
Lemma sleep_error_spec (s : Z) :
  can_sleep s = false →
  (sleep_error s = ValueError ∧ (- max_sleep <= s < 0)%Z)
  ∨ (sleep_error s = OverflowError ∧ (s < - max_sleep ∨ max_sleep < s)%Z).
Proof.
  unfold can_sleep, sleep_error.
  destruct (Z.ltb_spec s (- max_sleep)), (Z.ltb_spec max_sleep s),
    (Z.leb_spec 0 s), (Z.leb_spec s max_sleep); simpl; intros Hcan; try discriminate;
    unfold max_sleep in *;
    (left; split; [reflexivity|lia]) || (right; split; [reflexivity|lia]).
Qed.

(** Two to the power of up to 33 is a length that [time.sleep] takes. *)
Lemma can_sleep_pow (k : Z) : (k <= 33)%Z → can_sleep (2 ^ k) = true.
Proof.
  intros Hk. apply can_sleep_spec. split; [by apply Z.pow_nonneg|].
  destruct (Z.le_gt_cases 0 k) as [Hpos|Hneg].
  - transitivity (2 ^ 33)%Z; [by apply Z.pow_le_mono_r|]. unfold max_sleep. lia.
  - rewrite Z.pow_neg_r by lia. unfold max_sleep. lia.
Qed.

(** One attempt of [update_range_data], case by case. *)
Lemma update_attempt_eq (ep : string) (body : json) (start end_ k : Z) (w : world) :
  update_attempt transport _headers ep body start end_ k w =
  let req := patch_request _headers ep body in
  let w1 := after_call w (transport (trace w) req).1 req in
  match (transport (trace w) req).2 with
  | Raises e => (Raised e, w1)
  | Responds r =>
      if ok r then (Returned (Return true), w1)
      else if update_retryable r then
        match wait_time (headers r !! "Retry-After") k with
        | Returned s =>
            if can_sleep s then (Returned (Continue tt), after_sleep w1 s)
            else (Raised (sleep_error s), w1)
        | Raised e => (Raised e, w1)
        | Diverged => (Diverged, w1)
        end
      else (Raised (PyException (update_failed_message start end_ (text r))), w1)
  end.
Proof.
  unfold update_attempt, session_patch, mbind, M_bind. rewrite send_eq. simpl.
  destruct (transport (trace w) (patch_request _headers ep body)).2 as [e|r]; [done|].
  destruct (ok r); [done|]. destruct (update_retryable r); [|done].
  unfold lift.
  destruct (wait_time (headers r !! "Retry-After") k) as [s|e|]; try done.
  rewrite sleep_cases. by destruct (can_sleep s).
Qed.

Lemma wait_time_nonneg (retry_after : option string) (k s : Z) :
  wait_time retry_after k = Returned s → (0 <= s)%Z.
Proof.
  unfold wait_time. destruct retry_after as [h|].
  - destruct (Py.truthy h && Py.isdigit h).
    + destruct (Py.int h) as [n|] eqn:E; [|discriminate].
      intros [= <-]. by apply (int_nonneg h).
    + intros [= <-]. by apply Z.pow_nonneg.
  - intros [= <-]. by apply Z.pow_nonneg.
Qed.

(** An attempt returns [True], goes on after a sleep, or raises. *)
Lemma update_attempt_cases (ep : string) (body : json) (start end_ k : Z) (w : world) :
  let req := patch_request _headers ep body in
  let w1 := after_call w (transport (trace w) req).1 req in
  let run := update_attempt transport _headers ep body start end_ k w in
  run = (Returned (Return true), w1) ∨
  (∃ s, (0 <= s)%Z ∧ run = (Returned (Continue tt), after_sleep w1 s)) ∨
  (∃ e, run = (Raised e, w1)).
Proof.
  intros req w1 run. unfold run. rewrite update_attempt_eq. cbv zeta. fold req. fold w1.
  destruct (transport (trace w) req).2 as [e|r]; [by right; right; exists e|].
  destruct (ok r); [by left|].
  destruct (update_retryable r); [|right; right; eauto].
  destruct (wait_time (headers r !! "Retry-After") k) as [s|e|] eqn:E.
  - apply wait_time_nonneg in E. destruct (can_sleep s).
    + right; left. by exists s.
    + right; right. by eexists.
  - right; right. by exists e.
  - unfold wait_time in E. repeat case_match; discriminate.
Qed.

(** The retry loop of [update_range_data] leaves with [True], raises, or
    runs through the whole range. *)
Lemma for_each_update_flow (ep : string) (body : json) (start end_ : Z) (xs : list Z)
    (w : world) :
  let o := (for_each xs (update_attempt transport _headers ep body start end_) w).1 in
  o = Returned (Return true) ∨ o = Returned (Continue tt) ∨ ∃ e, o = Raised e.
Proof.
  revert w. induction xs as [|k xs IH]; intros w; [by right; left|].
  cbn [for_each]. unfold mbind, M_bind.
  destruct (update_attempt_cases ep body start end_ k w) as [E|[(s & _ & E)|(e & E)]];
    rewrite E.
  - by left.
  - apply IH.
  - right; right. by exists e.
Qed.

Lemma wait_time_returns (r : response) (k : Z) :
  hint_well_formed r = true →
  ∃ s, wait_time (headers r !! "Retry-After") k = Returned s ∧ (0 <= s)%Z.
Proof.
  unfold hint_well_formed, wait_time. intros H.
  destruct (headers r !! "Retry-After") as [h|]; [|eexists; split; [done|by apply Z.pow_nonneg]].
  destruct (Py.truthy h && Py.isdigit h) eqn:E;
    [|eexists; split; [done|by apply Z.pow_nonneg]].
  apply andb_true_iff in E as [Ht Hd]. rewrite Hd in H. simpl in H.
  apply andb_true_iff in H as [Hdec Hlen].
  unfold Py.int. rewrite Ht, Hdec, Hlen. simpl. eexists; split; [done|].
  by apply int_digits_nonneg.
Qed.

Lemma wait_time_hinted (r : response) (k : Z) :
  hint_well_formed r = true →
  wait_time (headers r !! "Retry-After") k = Returned (hinted_wait r k).
Proof.
  unfold hint_well_formed, wait_time, hinted_wait.
  destruct (headers r !! "Retry-After") as [h|]; [|done].
  destruct (Py.isdigit h) eqn:Hd; simpl.
  - intros [Hdec Hlen]%andb_true_iff. apply andb_true_iff in Hd as [Ht _].
    unfold Py.int. by rewrite Ht, Hdec, Hlen.
  - by rewrite andb_false_r.
Qed.




(** [update_range_data] gives [True] or raises. *)
Lemma update_range_data_outcome
    (site_id drive_id new_item_id raw_data_sheet_name update_range : string)
    (chunk_data : list json) (start end_ max_retries : Z) (w : world) :
  let o := (update_range_data transport _headers site_id drive_id new_item_id
              raw_data_sheet_name update_range chunk_data start end_ max_retries w).1 in
  o = Returned true ∨ ∃ e, o = Raised e.
Proof.
  cbv zeta. unfold update_range_data, mbind, M_bind.
  match goal with |- context [for_each ?xs (update_attempt _ _ ?ep ?body ?s ?e) w] =>
    pose proof (for_each_update_flow ep body s e xs w) as H; cbv zeta in H;
    destruct (for_each xs (update_attempt transport _headers ep body s e) w) as [o w'] end.
  simpl in H. destruct H as [->|[->|[e ->]]]; simpl; eauto.
Qed.

(** C10: [update_range_data] gives [True] or raises; it never gives
    [False] and its loop always ends. *)
Theorem update_range_data_true_or_raises
    (site_id drive_id new_item_id raw_data_sheet_name update_range : string)
    (chunk_data : list json) (start end_ max_retries : Z) (w : world) :
  let o := (update_range_data transport _headers site_id drive_id new_item_id
              raw_data_sheet_name update_range chunk_data start end_ max_retries w).1 in
  (o = Returned true ∨ ∃ e, o = Raised e) ∧ o ≠ Returned false ∧ o ≠ Diverged.
Proof.
  cbv zeta.
  destruct (update_range_data_outcome site_id drive_id new_item_id raw_data_sheet_name
              update_range chunk_data start end_ max_retries w) as [H|[e H]];
    rewrite H; split_and!; eauto; discriminate.
Qed.

(** C9: with [max_retries = 0] the loop body never runs: the world is
    left as it was, without any request, and the exhaustion error is
    raised at once. *)
Theorem update_range_data_zero_retries
    (site_id drive_id new_item_id raw_data_sheet_name update_range : string)
    (chunk_data : list json) (start end_ : Z) (w : world) :
  update_range_data transport _headers site_id drive_id new_item_id
    raw_data_sheet_name update_range chunk_data start end_ 0 w
  = (Raised (PyException (update_exhausted_message start end_ 0)), w).
Proof. reflexivity. Qed.

(** *** The retry loop of [update_range_data] *)

Lemma update_attempt_retry (ep : string) (body : json) (start end_ k s : Z) (w : world)
    (r : response) :
  let req := patch_request _headers ep body in
  (transport (trace w) req).2 = Responds r →
  ok r = false → update_retryable r = true →
  wait_time (headers r !! "Retry-After") k = Returned s → can_sleep s = true →
  update_attempt transport _headers ep body start end_ k w =
  (Returned (Continue tt), after_sleep (after_call w (transport (trace w) req).1 req) s).
Proof.
  intros req Hr Hok Hretry Hs Hfits. rewrite update_attempt_eq. cbv zeta. fold req.
  by rewrite Hr, Hok, Hretry, Hs, Hfits.
Qed.


Lemma calls_patch_request (ep : string) (body : json) :
  calls PATCH [ERequest (patch_request _headers ep body)] = 1%nat.
Proof. reflexivity. Qed.

(** Whatever the remote side does, the events of the loop are requests
    to the one endpoint and sleeps, with at most one request per round. *)
Lemma for_each_update_trace (ep : string) (body : json) (start end_ : Z) (xs : list Z)
    (w : world) :
  let req := patch_request _headers ep body in
  ∃ ev, trace (for_each xs (update_attempt transport _headers ep body start end_) w).2
        = trace w ++ ev
        ∧ Forall (emitted_for req) ev ∧ (calls PATCH ev <= length xs)%nat.
Proof.
  cbv zeta. revert w. induction xs as [|k xs IH]; intros w.
  { exists []. simpl. by rewrite app_nil_r. }
  cbn [for_each]. unfold mbind, M_bind.
  destruct (update_attempt_cases ep body start end_ k w) as [E|[(s & _ & E)|(e & E)]];
    rewrite E.
  - eexists [_]. split_and!; [done| |rewrite calls_patch_request; simpl; lia].
    constructor; [by left|constructor].
  - match goal with |- context [after_sleep ?w1 s] =>
      destruct (IH (after_sleep w1 s)) as (ev & -> & Hev & Hn) end.
    eexists (_ :: ESleep s :: ev). simpl. split_and!.
    + by rewrite <- !app_assoc.
    + constructor; [by left|]. constructor; [right; by exists s|done].
    + rewrite !calls_cons. simpl. lia.
  - eexists [_]. split_and!; [done| |rewrite calls_patch_request; simpl; lia].
    constructor; [by left|constructor].
Qed.


Lemma length_range (n : Z) : length (Py.range n) = Z.to_nat n.
Proof. unfold Py.range. by rewrite length_map, length_seq. Qed.

Lemma range_bounds (n : Z) : Forall (λ x, 0 <= x < n)%Z (Py.range n).
Proof.
  unfold Py.range. apply List.Forall_forall. intros x Hx.
  apply in_map_iff in Hx as (i & <- & Hi). apply in_seq in Hi. lia.
Qed.


(** Any run of [update_range_data] only emits requests to its own
    endpoint, at most [max_retries] of them, and sleeps. *)
Lemma update_range_data_trace
    (site_id drive_id new_item_id raw_data_sheet_name update_range : string)
    (chunk_data : list json) (start end_ max_retries : Z) (w : world) :
  let req := update_request _headers site_id drive_id new_item_id raw_data_sheet_name
               update_range chunk_data in
  ∃ ev, trace (update_range_data transport _headers site_id drive_id new_item_id
                 raw_data_sheet_name update_range chunk_data start end_ max_retries w).2
        = trace w ++ ev
        ∧ Forall (emitted_for req) ev ∧ (calls PATCH ev <= Z.to_nat max_retries)%nat.
Proof.
  intros req. unfold update_range_data, mbind, M_bind.
  destruct (for_each_update_trace
              (update_endpoint site_id drive_id new_item_id raw_data_sheet_name update_range)
              (JObj {["values" := JArr chunk_data]}) start end_ (Py.range max_retries) w)
    as (ev & Htr & Hev & Hn).
  rewrite length_range in Hn. exists ev.
  destruct (for_each _ _ w) as [[[[]|b]|e|] w']; simpl in *; done.
Qed.

(** *** The [while] loop *)

Lemma while_exit {S A} (fuel : nat) (cond : S → M bool) (body : S → M (flow S A))
    (s : S) (w : world) :
  cond s w = (Returned false, w) →
  while fuel cond body s w = (Returned (Continue s), w).
Proof. intros H. destruct fuel; simpl; unfold mbind, M_bind; by rewrite H. Qed.

Lemma while_step {S A} (fuel : nat) (cond : S → M bool) (body : S → M (flow S A))
    (s : S) (w : world) :
  cond s w = (Returned true, w) →
  while (Datatypes.S fuel) cond body s w =
  match body s w with
  | (Returned (Continue s'), w') => while fuel cond body s' w'
  | (Returned (Return a), w') => (Returned (Return a), w')
  | (Raised e, w') => (Raised e, w')
  | (Diverged, w') => (Diverged, w')
  end.
Proof.
  intros H. cbn [while]. unfold mbind, M_bind. rewrite H.
  by destruct (body s w) as [[[s'|a]|e|] w'].
Qed.

Lemma while_out_of_fuel {S A} (cond : S → M bool) (body : S → M (flow S A))
    (s : S) (w : world) :
  cond s w = (Returned true, w) → while 0 cond body s w = (Diverged, w).
Proof. intros H. simpl. unfold mbind, M_bind. by rewrite H. Qed.

(** *** The diagnostic read and the refresh attempts *)

Lemma diagnostic_read_eq (diag : string) (w : world) :
  let req := get_request _headers diag in
  diagnostic_read transport _headers diag w =
  (match diagnostic_failure (transport (trace w) req).2 with
   | Some e => Raised e
   | None => Returned tt
   end, after_call w (transport (trace w) req).1 req).
Proof.
  cbv zeta. unfold diagnostic_read, session_get, mbind, M_bind. rewrite send_eq.
  destruct (transport (trace w) (get_request _headers diag)).2 as [e|r]; simpl; [done|].
  destruct (ok r); [|done]. unfold lift, response_json. by destruct (json_body r).
Qed.


Lemma refresh_attempt_eq (ep diag : string) (c : Z) (last : option string) (w : world) :
  let req := post_request _headers ep in
  let w1 := after_call w (transport (trace w) req).1 req in
  refresh_attempt transport _headers ep diag (c, last) w =
  match (transport (trace w) req).2 with
  | Raises e => (Raised e, w1)
  | Responds r =>
      if ok r then (Returned (Return tt), w1)
      else if refresh_retryable r then
        if can_sleep (2 ^ (c + 1)) then
          (Returned (Continue ((c + 1)%Z, Some (text r))), after_sleep w1 (2 ^ (c + 1)))
        else (Raised (sleep_error (2 ^ (c + 1))), w1)
      else
        let greq := get_request _headers diag in
        (match diagnostic_failure (transport (trace w1) greq).2 with
         | Some e => Raised e
         | None => Raised (PyException (refresh_failed_message (text r)))
         end, after_call w1 (transport (trace w1) greq).1 greq)
  end.
Proof.
  cbv zeta. unfold refresh_attempt, session_post, mbind, M_bind. rewrite send_eq.
  destruct (transport (trace w) (post_request _headers ep)).2 as [e|r]; simpl; [done|].
  destruct (ok r); [done|]. destruct (refresh_retryable r).
  - rewrite sleep_cases. by destruct (can_sleep _).
  - rewrite diagnostic_read_eq. cbv zeta.
    by destruct (diagnostic_failure _).
Qed.


(** *** Exhaustion of the refresh loops *)




(** The fuel [refresh_pivot_table] gives its loop is enough: the loop
    counter grows in every round that goes on. *)
Lemma refresh_loop_terminates (ep diag : string) (max_retries : Z) (n : nat) :
  ∀ (c : Z) (last : option string) (w : world),
    n = Z.to_nat (max_retries - c) →
    (while n (λ s, mret (s.1 <? max_retries)%Z)
       (refresh_attempt transport _headers ep diag) (c, last) w).1 ≠ Diverged.
Proof.
  induction n as [|n IH]; intros c last w Hn.
  - rewrite while_exit; [done|]. unfold mret, M_ret. simpl.
    destruct (Z.ltb_spec c max_retries); [lia|done].
  - rewrite while_step; last first.
    { unfold mret, M_ret. simpl. destruct (Z.ltb_spec c max_retries); [done|lia]. }
    rewrite refresh_attempt_eq. cbv zeta.
    destruct (transport (trace w) (post_request _headers ep)).2 as [e|r]; [done|].
    destruct (ok r); [done|]. destruct (refresh_retryable r).
    + destruct (can_sleep _); [apply IH; lia|done].
    + by destruct (diagnostic_failure _).
Qed.

Lemma refresh_pivot_table_terminates (site_id drive_id item_id pivot_table_sheet : string)
    (max_retries : Z) (w : world) :
  (refresh_pivot_table transport _headers quote site_id drive_id item_id
     pivot_table_sheet max_retries w).1 ≠ Diverged.
Proof.
  unfold refresh_pivot_table, mbind, M_bind.
  match goal with |- context [while ?n ?c ?b ?s w] =>
    pose proof (refresh_loop_terminates
                  (refresh_pivot_endpoint site_id drive_id item_id (quote pivot_table_sheet))
                  (pivot_tables_endpoint site_id drive_id item_id (quote pivot_table_sheet))
                  max_retries (Z.to_nat max_retries) 0 None w) as H;
    destruct (while n c b s w) as [[[[c' last]|[]]|e|] w'] end; simpl in *; try done.
  - rewrite diagnostic_read_eq. cbv zeta. by destruct (diagnostic_failure _).
  - exfalso. apply H; [by rewrite Z.sub_0_r|done].
Qed.

(** *** Failures that are not retried *)

Lemma range_pos (n : Z) : (1 <= n)%Z → ∃ xs, Py.range n = 0%Z :: xs.
Proof.
  intros Hn. unfold Py.range. destruct (Z.to_nat n) as [|m] eqn:E; [lia|].
  simpl. eauto.
Qed.



(** *** The poll loop of [wait_for_file] *)

Lemma file_metadata_total (data : json) : file_metadata data ≠ Diverged.
Proof.
  unfold file_metadata, mbind, outcome_bind, dict_get, str_replace.
  destruct data; try done. simpl. by destruct (default (JStr EmptyString) (m !! _)).
Qed.

(** One lookup never raises: it either finds the file or falls through. *)
Lemma lookup_eq (ep : string) (w : world) :
  let req := get_request _headers ep in
  lookup transport _headers ep w =
  (match found (transport (trace w) req).2 with
   | Some meta => Returned (Return meta)
   | None => Returned (Continue tt)
   end, after_call w (transport (trace w) req).1 req).
Proof.
  cbv zeta. unfold lookup, try_except, session_get, mbind, M_bind. rewrite send_eq.
  destruct (transport (trace w) (get_request _headers ep)).2 as [e|r]; simpl; [done|].
  destruct (ok r); [|done]. unfold lift, response_json.
  destruct (json_body r) as [data|]; [|done].
  pose proof (file_metadata_total data).
  by destruct (file_metadata data).
Qed.

Lemma poll_round_eq (ep : string) (poll_interval : Z) (w : world) :
  let req := get_request _headers ep in
  let w1 := after_call w (transport (trace w) req).1 req in
  poll_round transport _headers ep poll_interval tt w =
  match found (transport (trace w) req).2 with
  | Some meta => (Returned (Return meta), w1)
  | None =>
      if can_sleep poll_interval then (Returned (Continue tt), after_sleep w1 poll_interval)
      else (Raised (sleep_error poll_interval), w1)
  end.
Proof.
  cbv zeta. unfold poll_round, mbind, M_bind. rewrite lookup_eq. cbv zeta.
  destruct (found _); [done|]. rewrite sleep_cases. by destruct (can_sleep poll_interval).
Qed.

Lemma within_timeout_eq (start_time : Q) (timeout : Z) (w : world) :
  within_timeout start_time timeout tt w
  = (Returned (Qltb (now w - start_time) (inject_Z timeout)), w).
Proof. reflexivity. Qed.


Lemma trace_after_round (w : world) (d : Q) (req : request) (s : Z) :
  trace (after_sleep (after_call w d req) s) = trace w ++ [ERequest req; ESleep s].
Proof. simpl. by rewrite <- app_assoc. Qed.







(** *** The chunk loop *)




(** *** The waits between attempts *)















(** *** Failures that end the call at once *)


(** *** What the exhaustion errors carry *)


(** *** Claims on [wait_for_file] *)



(** *** Claims on the chunk loop *)


End Properties.

(** ** The methods on concrete remote sides *)

Import Scenario.

(** C1: the retry loop of [refresh_pivot_table] does issue exactly
    [max_retries] POST calls when each of them fails with
    [MaxRequestDurationExceeded], here two; but the diagnostic GET that
    follows is not guarded, and when it raises, its exception reaches the
    caller in place of the exhaustion error.  In the same way
    [update_range_data] stops at the first attempt with a [ValueError] when
    the rate-limited answer carries a [Retry-After] of a superscript digit,
    which passes [isdigit] and which [int] refuses. *)
Theorem refresh_exhaustion_masked_by_diagnostic :
  let aborted := TransportError "Connection aborted" in
  let transport := by_method (Raises aborted) (Responds duration_exceeded)
                     (Responds (rate_limited_after superscript_two)) in
  let refresh := refresh_pivot_table transport ∅ quote_plain "site" "drive" "item" "Pivot" 2 w0 in
  let update := update_range_data transport ∅ "site" "drive" "item" "Data" "A2:A101"
                  [] 0 100 3 w0 in
  (ok duration_exceeded = false ∧ refresh_retryable duration_exceeded = true)
  ∧ refresh.1 = Raised aborted
  ∧ refresh.1 ≠ Raised (PyException (refresh_exhausted_message (Some (text duration_exceeded))))
  ∧ calls POST (trace refresh.2) = 2%nat
  ∧ (ok (rate_limited_after superscript_two) = false
     ∧ update_retryable (rate_limited_after superscript_two) = true)
  ∧ update.1 = Raised ValueError
  ∧ calls PATCH (trace update.2) = 1%nat.
Proof. cbv zeta. split_and!; try (vm_compute; reflexivity). discriminate. Qed.

(** C8: a refresh that fails with a 404 is followed by the diagnostic GET.
    When that GET raises, or answers ok with a body that does not decode,
    the exception of the diagnostic read is what the caller gets, not the
    failure of the refresh. *)
Theorem refresh_failure_masked_by_diagnostic :
  let aborted := TransportError "Connection aborted" in
  let original := PyException (refresh_failed_message (text not_found)) in
  let raising := by_method (Raises aborted) (Responds not_found) (Responds updated) in
  let undecodable := by_method (Responds gateway_page) (Responds not_found) (Responds updated) in
  let run transport :=
    refresh_pivot_table transport ∅ quote_plain "site" "drive" "item" "Pivot" 3 w0 in
  (ok not_found = false ∧ refresh_retryable not_found = false)
  ∧ (run raising).1 = Raised aborted
  ∧ (run raising).1 ≠ Raised original
  ∧ (run undecodable).1 = Raised JSONDecodeError
  ∧ (run undecodable).1 ≠ Raised original
  ∧ calls POST (trace (run raising).2) = 1%nat
  ∧ calls GET (trace (run raising).2) = 1%nat.
Proof. cbv zeta. split_and!; try (vm_compute; reflexivity); discriminate. Qed.





(** ** The theorems at work *)







(** * Further properties *)

(** ** Sums of waits *)

Lemma sum_app (l1 l2 : list Z) :
  foldr Z.add 0%Z (l1 ++ l2) = (foldr Z.add 0 l1 + foldr Z.add 0 l2)%Z.
Proof. induction l1 as [|x l1 IH]; simpl; [done|]. rewrite IH. lia. Qed.

Lemma total_sleep_app (tr1 tr2 : list event) :
  total_sleep (tr1 ++ tr2) = (total_sleep tr1 + total_sleep tr2)%Z.
Proof. unfold total_sleep. by rewrite sleeps_app, sum_app. Qed.

Lemma sum_powers_of_two (a n : nat) :
  foldr Z.add 0%Z (map (λ i, 2 ^ Z.of_nat i)%Z (seq a n))
  = (2 ^ Z.of_nat (a + n) - 2 ^ Z.of_nat a)%Z.
Proof.
  revert a. induction n as [|n IH]; intros a; simpl.
  - rewrite Nat.add_0_r. lia.
  - rewrite IH. replace (a + S n)%nat with (S a + n)%nat by lia.
    rewrite (Nat2Z.inj_succ a), Z.pow_succ_r by lia. lia.
Qed.

Lemma calls_nil (m : method) : calls m [] = 0%nat.
Proof. reflexivity. Qed.

Ltac count_calls := rewrite ?calls_app, ?calls_cons, ?calls_nil; simpl.

Lemma sleeps_cons_request (req : request) (tr : list event) :
  sleeps (ERequest req :: tr) = sleeps tr.
Proof. reflexivity. Qed.

Lemma sleeps_cons_sleep (s : Z) (tr : list event) : sleeps (ESleep s :: tr) = s :: sleeps tr.
Proof. reflexivity. Qed.

Lemma calls_emitted_for (req : request) (m : method) (ev : list event) :
  meth req ≠ m → Forall (emitted_for req) ev → calls m ev = 0%nat.
Proof.
  intros Hm. induction 1 as [|e ev He _ IH]; [done|].
  rewrite calls_cons, IH. destruct He as [->|[s ->]]; simpl; [|done].
  by rewrite bool_decide_eq_false_2.
Qed.

Section FurtherProperties.

Context (transport : list event → request → Q * reply).
Context (_headers : gmap string string).
Context (quote : string → string).

(** ** More on the retry loop of [update_range_data] *)


Lemma calls_after_round (m : method) (w : world) (d : Q) (req : request) (s : Z) :
  calls m (trace (after_sleep (after_call w d req) s))
  = (calls m (trace w) + (if bool_decide (meth req = m) then 1 else 0))%nat.
Proof.
  rewrite trace_after_round, calls_app, !calls_cons. simpl.
  change (calls m []) with 0%nat. lia.
Qed.



Lemma for_each_update_backoff (ep : string) (body : json) (start end_ : Z) :
  let req := patch_request _headers ep body in
  (∀ h, retryable_without_hint (transport h req).2) →
  ∀ (xs : list Z) (w : world),
    Forall (λ x, x <= 33)%Z xs →
    ∃ w', for_each xs (update_attempt transport _headers ep body start end_) w
          = (Returned (Continue tt), w')
          ∧ sleeps (trace w') = sleeps (trace w) ++ map (λ k, 2 ^ k)%Z xs.
Proof.
  intros req Hfail xs w Hxs. revert w. induction Hxs as [|x xs Hx _ IH]; intros w.
  { exists w. split; [done|]. by rewrite app_nil_r. }
  destruct (Hfail (trace w)) as (r & Hr & Hok & Hretry & Hhint).
  cbn [for_each]. unfold mbind, M_bind.
  rewrite (update_attempt_retry transport _headers ep body start end_ x (2 ^ x) w r
             Hr Hok Hretry);
    [|by rewrite Hhint|by apply (can_sleep_pow)].
  fold req. destruct (IH (after_sleep (after_call w (transport (trace w) req).1 req) (2 ^ x)))
    as (w' & Hrun & Hs).
  exists w'. split; [done|]. rewrite Hs, trace_after_round, sleeps_app. simpl.
  by rewrite <- app_assoc.
Qed.

(** X2: when every answer is a failure that is retried and none carries a
    [Retry-After] header, the call gives up after waits of 1, 2, 4, ...
    seconds, one per attempt: [2 ^ max_retries - 1] seconds of sleep in
    all.  This holds up to 34 attempts, the last wait that [time.sleep]
    takes being two to the power 33. *)
Theorem update_range_data_total_backoff
    (site_id drive_id new_item_id raw_data_sheet_name update_range : string)
    (chunk_data : list json) (start end_ max_retries : Z) (w : world) :
  let req := update_request _headers site_id drive_id new_item_id raw_data_sheet_name
               update_range chunk_data in
  (0 <= max_retries <= 34)%Z →
  (∀ h, retryable_without_hint (transport h req).2) →
  ∃ w', update_range_data transport _headers site_id drive_id new_item_id
          raw_data_sheet_name update_range chunk_data start end_ max_retries w
        = (Raised (PyException (update_exhausted_message start end_ max_retries)), w')
        ∧ sleeps (trace w') = sleeps (trace w) ++ map (λ k, 2 ^ k)%Z (Py.range max_retries)
        ∧ total_sleep (trace w') = (total_sleep (trace w) + 2 ^ max_retries - 1)%Z.
Proof.
  intros req Hn Hfail. unfold update_range_data, mbind, M_bind.
  destruct (for_each_update_backoff
              (update_endpoint site_id drive_id new_item_id raw_data_sheet_name update_range)
              (JObj {["values" := JArr chunk_data]}) start end_ Hfail
              (Py.range max_retries) w) as (w' & -> & Hs).
  { eapply Forall_impl; [apply (range_bounds max_retries)|].
    simpl. intros x Hx. lia. }
  exists w'. split_and!; [done|done|].
  unfold total_sleep. rewrite Hs, sum_app.
  unfold Py.range. rewrite map_map, sum_powers_of_two. simpl.
  rewrite Z2Nat.id by lia. lia.
Qed.

(** X3: whatever the remote side does, [update_range_data] issues no
    request but its PATCH, at most [max_retries] times, and never sleeps
    more often than it has asked. *)
Theorem update_range_data_budget
    (site_id drive_id new_item_id raw_data_sheet_name update_range : string)
    (chunk_data : list json) (start end_ max_retries : Z) (w : world) :
  let req := update_request _headers site_id drive_id new_item_id raw_data_sheet_name
               update_range chunk_data in
  ∃ ev, trace (update_range_data transport _headers site_id drive_id new_item_id
                 raw_data_sheet_name update_range chunk_data start end_ max_retries w).2
        = trace w ++ ev
        ∧ Forall (emitted_for req) ev
        ∧ (calls PATCH ev <= Z.to_nat max_retries)%nat
        ∧ calls GET ev = 0%nat ∧ calls POST ev = 0%nat.
Proof.
  intros req.
  destruct (update_range_data_trace transport _headers site_id drive_id new_item_id
              raw_data_sheet_name update_range chunk_data start end_ max_retries w)
    as (ev & Htr & Hev & Hn).
  exists ev. split_and!; try done.
  - by apply (calls_emitted_for req).
  - by apply (calls_emitted_for req).
Qed.

(** X23: a [Retry-After] value of decimal digits above 9223372036 is
    taken for the wait, and [time.sleep] refuses it: when the first failure
    that is retried carries such a value, the call ends with
    [OverflowError] right after its first PATCH, whatever [max_retries]
    is. *)
Theorem update_range_data_overlong_hint
    (site_id drive_id new_item_id raw_data_sheet_name update_range : string)
    (chunk_data : list json) (start end_ max_retries : Z) (w : world) (r : response) :
  let req := update_request _headers site_id drive_id new_item_id raw_data_sheet_name
               update_range chunk_data in
  (1 <= max_retries)%Z →
  (transport (trace w) req).2 = Responds r → ok r = false → update_retryable r = true →
  hint_well_formed r = true → (max_sleep < hinted_wait r 0)%Z →
  update_range_data transport _headers site_id drive_id new_item_id raw_data_sheet_name
    update_range chunk_data start end_ max_retries w
  = (Raised OverflowError, after_call w (transport (trace w) req).1 req).
Proof.
  intros req Hn Hr Hok Hretry Hhint Hlong. unfold update_range_data.
  destruct (range_pos max_retries Hn) as (xs & ->).
  cbn [for_each]. unfold mbind, M_bind. rewrite update_attempt_eq. cbv zeta.
  unfold req, update_request in Hr. rewrite Hr, Hok, Hretry, (wait_time_hinted r 0 Hhint).
  destruct (can_sleep (hinted_wait r 0)) eqn:Hcan.
  - apply can_sleep_spec in Hcan. lia.
  - by destruct (sleep_error_spec _ Hcan) as [[_ ?]|[-> _]]; [lia|].
Qed.

(** ** More on the refresh loops *)



Lemma refresh_loop_succeeds (ep diag : string) (max_retries : Z) (k : nat) :
  let req := post_request _headers ep in
  ∀ (fuel : nat) (c : Z) (last : option string) (w : world),
    (c + Z.of_nat k < max_retries)%Z → (c + Z.of_nat k <= 33)%Z → (k < fuel)%nat →
    (∀ h, (calls POST h < calls POST (trace w) + k)%nat →
          duration_failure (transport h req).2) →
    (∀ h, calls POST h = (calls POST (trace w) + k)%nat → success (transport h req).2) →
    ∃ w', while fuel (λ s, mret (s.1 <? max_retries)%Z)
            (refresh_attempt transport _headers ep diag) (c, last) w
          = (Returned (Return tt), w')
          ∧ calls POST (trace w') = (calls POST (trace w) + k + 1)%nat
          ∧ calls GET (trace w') = calls GET (trace w)
          ∧ sleeps (trace w')
            = sleeps (trace w) ++ map (λ i, 2 ^ (c + Z.of_nat i + 1))%Z (seq 0 k).
Proof.
  intros req. induction k as [|k IH]; intros fuel c last w Hc Hfits Hfuel Hfail Hok;
    (destruct fuel as [|fuel]; [lia|]);
    (rewrite while_step;
     [|unfold mret, M_ret; simpl; destruct (Z.ltb_spec c max_retries); [done|lia]]);
    rewrite refresh_attempt_eq; cbv zeta; fold req.
  - destruct (Hok (trace w) ltac:(lia)) as (r & -> & ->).
    eexists. split; [done|]. simpl. rewrite sleeps_app. count_calls.
    rewrite app_nil_r. split_and!; [lia|lia|done].
  - destruct (Hfail (trace w) ltac:(lia)) as (r & -> & -> & ->).
    rewrite (can_sleep_pow (c + 1)) by lia.
    set (w2 := after_sleep _ _).
    assert (calls POST (trace w2) = S (calls POST (trace w))) as Hposts.
    { unfold w2. rewrite calls_after_round. simpl. lia. }
    assert (calls GET (trace w2) = calls GET (trace w)) as Hgets.
    { unfold w2. rewrite calls_after_round. simpl. lia. }
    destruct (IH fuel (c + 1)%Z (Some (text r)) w2) as (w' & Hrun & Hp & Hg & Hs).
    + lia.
    + lia.
    + lia.
    + intros h Hh. apply Hfail. lia.
    + intros h Hh. apply Hok. lia.
    + exists w'. split; [done|]. rewrite Hp, Hg, Hs, Hposts, Hgets. split_and!; [lia|done|].
      unfold w2. rewrite trace_after_round, sleeps_app. simpl.
      rewrite <- app_assoc. simpl. f_equal. f_equal; [f_equal; lia|].
      rewrite <- seq_shift, map_map. apply map_ext. intros i. f_equal. lia.
Qed.

(** X5: when the first [k] answers to the refresh POST are
    duration-exceeded failures and the next one is ok, with [k] below
    [max_retries] and at most 33, so that [time.sleep] takes each wait,
    [refresh_pivot_table] returns after exactly [k + 1] POST calls and
    waits of 2, 4, ..., without any diagnostic GET. *)
Theorem refresh_pivot_table_succeeds_after_retries
    (site_id drive_id item_id pivot_table_sheet : string) (max_retries : Z) (k : nat)
    (w : world) :
  let req := refresh_request _headers quote site_id drive_id item_id pivot_table_sheet in
  (Z.of_nat k < max_retries)%Z → (k <= 33)%nat →
  (∀ h, (calls POST h < calls POST (trace w) + k)%nat →
        duration_failure (transport h req).2) →
  (∀ h, calls POST h = (calls POST (trace w) + k)%nat → success (transport h req).2) →
  ∃ w', refresh_pivot_table transport _headers quote site_id drive_id item_id
          pivot_table_sheet max_retries w = (Returned tt, w')
        ∧ calls POST (trace w') = (calls POST (trace w) + k + 1)%nat
        ∧ calls GET (trace w') = calls GET (trace w)
        ∧ sleeps (trace w') = sleeps (trace w) ++ refresh_backoff k.
Proof.
  intros req Hk Hfits Hfail Hok. unfold refresh_pivot_table, mbind, M_bind.
  destruct (refresh_loop_succeeds
              (refresh_pivot_endpoint site_id drive_id item_id (quote pivot_table_sheet))
              (pivot_tables_endpoint site_id drive_id item_id (quote pivot_table_sheet))
              max_retries k (Z.to_nat max_retries) 0%Z None w)
    as (w' & -> & Hp & Hg & Hs); [lia|lia|lia|exact Hfail|exact Hok|].
  by exists w'.
Qed.

Lemma refresh_loop_budget (ep diag : string) (max_retries : Z) (n : nat) :
  ∀ (c : Z) (last : option string) (w : world),
    n = Z.to_nat (max_retries - c) →
    let run := while n (λ s, mret (s.1 <? max_retries)%Z)
                 (refresh_attempt transport _headers ep diag) (c, last) w in
    ∃ ev, trace run.2 = trace w ++ ev
          ∧ (calls POST ev <= n)%nat ∧ calls PATCH ev = 0%nat
          ∧ match run.1 with
            | Returned _ => calls GET ev = 0%nat
            | Raised _ => (calls GET ev <= 1)%nat
            | Diverged => False
            end.
Proof.
  induction n as [|n IH]; intros c last w Hn; cbv zeta.
  - rewrite while_exit.
    + exists []. simpl. by rewrite app_nil_r.
    + unfold mret, M_ret. simpl. destruct (Z.ltb_spec c max_retries); [lia|done].
  - rewrite while_step; last first.
    { unfold mret, M_ret. simpl. destruct (Z.ltb_spec c max_retries); [done|lia]. }
    rewrite refresh_attempt_eq. cbv zeta.
    set (req := post_request _headers ep).
    destruct (transport (trace w) req).2 as [e|r].
    { exists [ERequest req]. simpl. count_calls. split_and!; [done|lia|done|lia]. }
    destruct (ok r).
    { exists [ERequest req]. simpl. count_calls. split_and!; [done|lia|done|done]. }
    destruct (refresh_retryable r).
    + destruct (can_sleep _).
      2: { exists [ERequest req]. simpl. count_calls. split_and!; [done|lia|done|lia]. }
      match goal with |- context [after_sleep ?w1 ?s] =>
        destruct (IH (c + 1)%Z (Some (text r)) (after_sleep w1 s) ltac:(lia))
          as (ev & Htr & Hp & Hpatch & Hg); cbv zeta in Htr, Hg;
        exists (ERequest req :: ESleep s :: ev) end.
      rewrite Htr, trace_after_round, <- app_assoc. simpl.
      count_calls. rewrite Hpatch. split_and!; [done|lia|done|].
      by destruct (while _ _ _ _ _).1.
    + set (greq := get_request _headers diag).
      exists [ERequest req; ERequest greq].
      destruct (diagnostic_failure _); simpl; rewrite <- app_assoc; count_calls;
        split_and!; [done|lia|done|lia|done|lia|done|lia].
Qed.

(** X6: whatever the remote side does, [refresh_pivot_table] ends, issues
    at most [max_retries] POST calls, at most one diagnostic GET and no
    other request, and a call that returns has issued no GET at all. *)
Theorem refresh_pivot_table_budget (site_id drive_id item_id pivot_table_sheet : string)
    (max_retries : Z) (w : world) :
  let run := refresh_pivot_table transport _headers quote site_id drive_id item_id
               pivot_table_sheet max_retries w in
  ∃ ev, trace run.2 = trace w ++ ev
        ∧ (calls POST ev <= Z.to_nat max_retries)%nat
        ∧ (calls GET ev <= 1)%nat ∧ calls PATCH ev = 0%nat
        ∧ run.1 ≠ Diverged
        ∧ (∀ u, run.1 = Returned u → calls GET ev = 0%nat).
Proof.
  cbv zeta. unfold refresh_pivot_table, mbind, M_bind.
  destruct (refresh_loop_budget
              (refresh_pivot_endpoint site_id drive_id item_id (quote pivot_table_sheet))
              (pivot_tables_endpoint site_id drive_id item_id (quote pivot_table_sheet))
              max_retries (Z.to_nat max_retries) 0%Z None w ltac:(lia))
    as (ev & Htr & Hp & Hpatch & Hg).
  cbv zeta in Htr, Hg.
  destruct (while _ _ _ _ w) as [[[[c last]|[]]|e|] w1]; simpl in *; try done.
  - rewrite diagnostic_read_eq. cbv zeta.
    match goal with |- context [after_call w1 _ ?greq] => exists (ev ++ [ERequest greq]) end.
    destruct (diagnostic_failure _); simpl; rewrite Htr, <- app_assoc; count_calls;
      split_and!; done || lia.
  - exists ev. split_and!; try done. lia.
  - exists ev. split_and!; done.
Qed.

(** ** More on [wait_for_file] *)

(** X7: with a timeout of zero or less, [wait_for_file] raises the timeout
    error at once: no lookup, no sleep, the world left as it was. *)
Theorem wait_for_file_no_time (fuel : nat)
    (site_id drive_id folder_path file_name : string) (timeout poll_interval : Z)
    (w : world) :
  (timeout <= 0)%Z →
  wait_for_file transport _headers fuel site_id drive_id folder_path file_name
    timeout poll_interval w
  = (Raised (PyException (timeout_message file_name folder_path)), w).
Proof.
  intros Ht. unfold wait_for_file, mbind at 1, M_bind at 1, time.
  unfold mbind, M_bind. rewrite while_exit; [done|].
  rewrite within_timeout_eq. f_equal. f_equal. apply Qltb_false.
  rewrite Zle_Qle in Ht. change (inject_Z 0) with 0%Q in Ht. lra.
Qed.

Lemma poll_loop_deadline (ep : string) (start_time : Q) (timeout poll_interval : Z)
    (fuel : nat) :
  let req := get_request _headers ep in
  (∀ h, (0 <= (transport h req).1)%Q) →
  ∀ (w : world) (c : Z),
    (inject_Z c <= now w - start_time)%Q →
    ∃ ev, trace (while fuel (within_timeout start_time timeout)
                   (poll_round transport _headers ep poll_interval) tt w).2
          = trace w ++ ev
          ∧ calls POST ev = 0%nat ∧ calls PATCH ev = 0%nat
          ∧ (calls GET ev = 0%nat
             ∨ (c + (Z.of_nat (calls GET ev) - 1) * poll_interval < timeout)%Z).
Proof.
  intros req Hdur. induction fuel as [|fuel IH]; intros w c Hc;
    destruct (Qltb (now w - start_time) (inject_Z timeout)) eqn:Hnow;
    try (rewrite while_exit by (by rewrite within_timeout_eq, Hnow);
         exists []; simpl; rewrite app_nil_r; split_and!; [done..|by left]).
  - rewrite while_out_of_fuel by (by rewrite within_timeout_eq, Hnow).
    exists []. simpl. rewrite app_nil_r. split_and!; [done..|by left].
  - rewrite while_step by (by rewrite within_timeout_eq, Hnow).
    rewrite poll_round_eq. cbv zeta. fold req.
    apply Qltb_true in Hnow.
    assert (c < timeout)%Z as Hlt by (rewrite Zlt_Qlt; lra).
    destruct (found (transport (trace w) req).2).
    { exists [ERequest req]. simpl. count_calls. split_and!; [done..|right; lia]. }
    destruct (can_sleep poll_interval); last first.
    { exists [ERequest req]. simpl. count_calls. split_and!; [done..|right; lia]. }
    set (w2 := after_sleep _ _).
    destruct (IH w2 (c + poll_interval)%Z) as (ev & Htr & Hposts & Hpatches & Hgets).
    { unfold w2. simpl. rewrite inject_Z_plus. pose proof (Hdur (trace w)). lra. }
    exists (ERequest req :: ESleep poll_interval :: ev).
    replace (trace _.2) with (trace w2 ++ ev)
      by (rewrite <- Htr; by destruct (while _ _ _ _ w2) as [[[[]|?]|?|] ?]).
    unfold w2. rewrite trace_after_round, <- app_assoc. simpl. count_calls.
    rewrite Hposts, Hpatches. split_and!; [done..|right].
    destruct Hgets as [->|Hgets]; lia.
Qed.

(** X8: when lookups take no negative time, [wait_for_file] never starts
    a lookup once the timeout has elapsed: lookup number [n] comes after
    [n - 1] sleeps, and [(n - 1) * poll_interval] is below the timeout.
    It issues nothing but its GET. *)
Theorem wait_for_file_deadline (fuel : nat)
    (site_id drive_id folder_path file_name : string) (timeout poll_interval : Z)
    (w : world) :
  let req := file_request _headers site_id drive_id folder_path file_name in
  (∀ h, (0 <= (transport h req).1)%Q) →
  ∃ ev, trace (wait_for_file transport _headers fuel site_id drive_id folder_path
                 file_name timeout poll_interval w).2 = trace w ++ ev
        ∧ calls POST ev = 0%nat ∧ calls PATCH ev = 0%nat
        ∧ (calls GET ev = 0%nat
           ∨ ((Z.of_nat (calls GET ev) - 1) * poll_interval < timeout)%Z).
Proof.
  intros req Hdur.
  destruct (poll_loop_deadline (file_endpoint site_id drive_id folder_path file_name)
              (now w) timeout poll_interval fuel Hdur w 0%Z) as (ev & Htr & Hp & Hpa & Hg).
  { change (inject_Z 0) with 0%Q. lra. }
  exists ev. split_and!; try done.
  unfold wait_for_file, mbind, M_bind, time. simpl.
  rewrite <- Htr. by destruct (while _ _ _ _ w) as [[[[]|?]|?|] ?].
Qed.

(** X9: a negative poll interval is not checked on entry: with time left
    and a first lookup that finds nothing, [wait_for_file] raises
    [ValueError] from its first sleep, after exactly one lookup.  This is
    so down to -9223372036, below which [time.sleep] raises another
    error. *)
Theorem wait_for_file_negative_interval (fuel : nat)
    (site_id drive_id folder_path file_name : string) (timeout poll_interval : Z)
    (w : world) :
  let req := file_request _headers site_id drive_id folder_path file_name in
  (0 < timeout)%Z → (- max_sleep <= poll_interval < 0)%Z → (0 < fuel)%nat →
  found (transport (trace w) req).2 = None →
  wait_for_file transport _headers fuel site_id drive_id folder_path file_name
    timeout poll_interval w
  = (Raised ValueError, after_call w (transport (trace w) req).1 req).
Proof.
  intros req Ht Hp Hfuel Hnone. destruct fuel as [|fuel]; [lia|].
  unfold wait_for_file, mbind at 1, M_bind at 1, time.
  unfold mbind at 1, M_bind at 1. rewrite while_step.
  - rewrite poll_round_eq. cbv zeta. fold (file_request _headers site_id drive_id
      folder_path file_name). fold req. rewrite Hnone.
    destruct (can_sleep poll_interval) eqn:Hcan.
    + apply (can_sleep_spec) in Hcan. lia.
    + by destruct (sleep_error_spec _ Hcan) as [[-> _]|[_ ?]];
        [|lia].
  - rewrite within_timeout_eq. f_equal. f_equal. apply Qltb_true.
    rewrite Zlt_Qlt in Ht. change (inject_Z 0) with 0%Q in Ht. lra.
Qed.

(** X24: a poll interval beyond 9223372036 seconds, on either side of
    zero, is not checked on entry either: with time left and a first
    lookup that finds nothing, [wait_for_file] raises [OverflowError] from
    its first sleep, after exactly one lookup. *)
Theorem wait_for_file_overlong_interval (fuel : nat)
    (site_id drive_id folder_path file_name : string) (timeout poll_interval : Z)
    (w : world) :
  let req := file_request _headers site_id drive_id folder_path file_name in
  (0 < timeout)%Z → (poll_interval < - max_sleep ∨ max_sleep < poll_interval)%Z →
  (0 < fuel)%nat →
  found (transport (trace w) req).2 = None →
  wait_for_file transport _headers fuel site_id drive_id folder_path file_name
    timeout poll_interval w
  = (Raised OverflowError, after_call w (transport (trace w) req).1 req).
Proof.
  intros req Ht Hp Hfuel Hnone. destruct fuel as [|fuel]; [lia|].
  unfold wait_for_file, mbind at 1, M_bind at 1, time.
  unfold mbind at 1, M_bind at 1. rewrite while_step.
  - rewrite poll_round_eq. cbv zeta. fold (file_request _headers site_id drive_id
      folder_path file_name). fold req. rewrite Hnone.
    destruct (can_sleep poll_interval) eqn:Hcan.
    + apply can_sleep_spec in Hcan. unfold max_sleep in *. lia.
    + by destruct (sleep_error_spec _ Hcan) as [[_ ?]|[-> _]]; [lia|].
  - rewrite within_timeout_eq. f_equal. f_equal. apply Qltb_true.
    rewrite Zlt_Qlt in Ht. change (inject_Z 0) with 0%Q in Ht. lra.
Qed.

(** ** The metadata that [wait_for_file] returns *)

Lemma free_of_append (c : ascii) (a b : string) :
  free_of c (a +:+ b) = free_of c a && free_of c b.
Proof.
  unfold free_of. induction a as [|x a IH]; simpl; [done|].
  by rewrite IH, andb_assoc.
Qed.

Lemma free_of_replace_same (c : ascii) (new s : string) :
  free_of c new = true → free_of c (Py.replace c new s) = true.
Proof.
  intros Hnew. induction s as [|x s IH]; simpl; [done|].
  destruct (Ascii.eqb x c) eqn:E.
  - by rewrite free_of_append, Hnew, IH.
  - unfold free_of in *. simpl. by rewrite E, IH.
Qed.

Lemma free_of_replace_other (c d : ascii) (new s : string) :
  free_of c new = true → free_of c s = true → free_of c (Py.replace d new s) = true.
Proof.
  intros Hnew. induction s as [|x s IH]; simpl; [done|].
  unfold free_of at 1. simpl. intros [Hx Hs]%andb_true_iff.
  destruct (Ascii.eqb x d).
  - rewrite free_of_append, Hnew. by apply IH.
  - unfold free_of in *. simpl. rewrite Hx. by apply IH.
Qed.

Lemma file_metadata_fields (data : json) (meta : gmap string json) :
  file_metadata data = Returned meta →
  dom meta = ({["id"; "name"; "createdDateTime"; "webUrl"]} : gset string)
  ∧ (∃ s, meta !! "createdDateTime" = Some (JStr s)
          ∧ free_of "T"%char s = true ∧ free_of "Z"%char s = true)
  ∧ ∃ m, data = JObj m
         ∧ meta !! "id" = Some (default JNull (m !! "id"))
         ∧ meta !! "name" = Some (default JNull (m !! "name"))
         ∧ meta !! "webUrl" = Some (default JNull (m !! "webUrl")).
Proof.
  unfold file_metadata, mbind, outcome_bind, dict_get, str_replace.
  destruct data as [| | | | |m]; try discriminate. simpl.
  destruct (default (JStr EmptyString) (m !! "createdDateTime")) as [| | |s| |];
    try discriminate.
  intros [= <-]. split_and!.
  - rewrite !dom_insert_L, dom_empty_L. set_solver.
  - eexists. split_and!; [by simplify_map_eq| |].
    + apply free_of_replace_other; [done|]. by apply free_of_replace_same.
    + by apply free_of_replace_same.
  - exists m. split_and!; [done|by simplify_map_eq..].
Qed.

(** X10: the metadata that a lookup of [wait_for_file] builds has exactly
    the keys [id], [name], [createdDateTime] and [webUrl]; its
    [createdDateTime] is a string without any [T] or [Z], and [id], [name]
    and [webUrl] are the values of the item, [None] for a missing key. *)
Theorem file_metadata_shape (data : json) (meta : gmap string json) :
  file_metadata data = Returned meta →
  dom meta = ({["id"; "name"; "createdDateTime"; "webUrl"]} : gset string)
  ∧ (∃ s, meta !! "createdDateTime" = Some (JStr s)
          ∧ free_of "T"%char s = true ∧ free_of "Z"%char s = true)
  ∧ ∃ m, data = JObj m
         ∧ meta !! "id" = Some (default JNull (m !! "id"))
         ∧ meta !! "name" = Some (default JNull (m !! "name"))
         ∧ meta !! "webUrl" = Some (default JNull (m !! "webUrl")).
Proof. apply file_metadata_fields. Qed.




End FurtherProperties.

(** ** The single-call methods *)

Lemma contains_char (c : ascii) (s : string) :
  Py.contains (String c EmptyString) s = negb (free_of c s).
Proof.
  unfold free_of. induction s as [|x s IH]; [done|].
  cbn [Py.contains Py.all_chars String.prefix]. rewrite IH.
  destruct (ascii_dec c x) as [->|Hne].
  - rewrite Ascii.eqb_refl. simpl. by destruct s.
  - assert (Ascii.eqb x c = false) as -> by (apply Ascii.eqb_neq; congruence). done.
Qed.

Lemma cut_None (sep : ascii) (s before : string) :
  PyExt.cut sep s = (before, None) → before = s ∧ free_of sep s = true.
Proof.
  revert before. induction s as [|x s IH]; intros before; simpl.
  - by intros [= <-].
  - destruct (Ascii.eqb x sep) eqn:E; [done|].
    destruct (PyExt.cut sep s) as [a [b|]]; [done|]. intros [= <-].
    destruct (IH a eq_refl) as [-> Hfree]. split; [done|].
    unfold free_of in *. simpl. by rewrite E, Hfree.
Qed.

Lemma cut_Some (sep : ascii) (s before after : string) :
  PyExt.cut sep s = (before, Some after) →
  s = before +:+ String sep after ∧ free_of sep before = true.
Proof.
  revert before. induction s as [|x s IH]; intros before; simpl; [done|].
  destruct (Ascii.eqb x sep) eqn:E.
  - intros [= <- <-]. apply Ascii.eqb_eq in E as ->. done.
  - destruct (PyExt.cut sep s) as [a [b|]]; [|done]. intros [= <- <-].
    destruct (IH a eq_refl) as [-> Hfree]. split; [done|].
    unfold free_of in *. simpl. by rewrite E, Hfree.
Qed.

Lemma cut_append (sep : ascii) (before after : string) :
  free_of sep before = true →
  PyExt.cut sep (before +:+ String sep after) = (before, Some after).
Proof.
  induction before as [|x before IH]; simpl.
  - by rewrite Ascii.eqb_refl.
  - unfold free_of. simpl. intros [Hx Hfree]%andb_true_iff.
    apply negb_true_iff in Hx. rewrite Hx. by rewrite (IH Hfree).
Qed.

Lemma cut_free (sep : ascii) (s : string) :
  free_of sep s = true → PyExt.cut sep s = (s, None).
Proof.
  induction s as [|x s IH]; simpl; [done|].
  unfold free_of. simpl. intros [Hx Hfree]%andb_true_iff.
  apply negb_true_iff in Hx. rewrite Hx. by rewrite (IH Hfree).
Qed.

Section SingleCallProperties.

Context (transport : list event → request → Q * reply).
Context (_headers : gmap string string).
Context (quote : string → string).
Context (is_connection_error is_timeout is_http_error : exn → bool).
Context (exn_str : exn → string).
Context (repr_other : json → string).
Context (content : response → list Byte.byte).

Local Abbreviation connect :=
  (__connect_to_site transport _headers is_connection_error is_timeout is_http_error exn_str).
Local Abbreviation site_id_of :=
  (get_site_id transport _headers is_connection_error is_timeout is_http_error exn_str).

Lemma connect_eq (u : string) (w : world) :
  let req := get_request _headers u in
  let w1 := after_call w (transport (trace w) req).1 req in
  connect u w =
  match (transport (trace w) req).2 with
  | Raises e =>
      (Raised (translated is_connection_error is_timeout is_http_error exn_str e), w1)
  | Responds r =>
      if (status_code r =? 400)%Z then (Raised (PyException "Bad Request"), w1)
      else if (status_code r =? 401)%Z then (Raised (PyException "Unauthorized"), w1)
      else if (status_code r =? 404)%Z then
        (Raised (PyException ("Not found: " +:+ Py.str (status_code r))), w1)
      else (Returned r, w1)
  end.
Proof.
  cbv zeta. unfold __connect_to_site, try_except, session_get, mbind, M_bind.
  rewrite send_eq.
  destruct (transport (trace w) (get_request _headers u)).2 as [e|r]; simpl.
  - unfold connect_handler, translated, raise.
    by destruct (is_connection_error e), (is_timeout e), (is_http_error e).
  - by destruct (status_code r =? 400)%Z, (status_code r =? 401)%Z, (status_code r =? 404)%Z.
Qed.

Lemma connect_passes (u : string) (w : world) (r : response) :
  let req := get_request _headers u in
  (transport (trace w) req).2 = Responds r → passes r →
  connect u w = (Returned r, after_call w (transport (trace w) req).1 req).
Proof.
  intros req Hr (H400 & H401 & H404). rewrite connect_eq. cbv zeta. fold req. rewrite Hr.
  destruct (Z.eqb_spec (status_code r) 400); [done|].
  destruct (Z.eqb_spec (status_code r) 401); [done|].
  by destruct (Z.eqb_spec (status_code r) 404).
Qed.

(** X12: [__connect_to_site] returns a response exactly when its single
    GET is answered with a status other than 400, 401 and 404, and then
    it returns that very response: a 403 or a 500 comes back to the caller
    as an ordinary return value. *)
Theorem connect_to_site_returns (u : string) (w w' : world) (r : response) :
  let req := get_request _headers u in
  connect u w = (Returned r, w')
  ↔ (transport (trace w) req).2 = Responds r ∧ passes r
    ∧ w' = after_call w (transport (trace w) req).1 req.
Proof.
  intros req. split.
  - rewrite connect_eq. cbv zeta. fold req.
    destruct (transport (trace w) req).2 as [e|r0]; [done|].
    destruct (Z.eqb_spec (status_code r0) 400); [done|].
    destruct (Z.eqb_spec (status_code r0) 401); [done|].
    destruct (Z.eqb_spec (status_code r0) 404); [done|].
    intros [= -> <-]. by repeat split.
  - intros (Hr & Hpass & ->). by apply connect_passes.
Qed.

(** X13: when the GET of [__connect_to_site] raises, a [ConnectionError],
    a [Timeout] or an [HTTPError] reaches the caller as a plain
    [Exception] whose message is a label followed by the text of the
    original; the clauses are tried in that order, so an exception that is
    both a [ConnectionError] and a [Timeout] is reported as a connection
    error; any other exception goes through unchanged. *)
Theorem connect_to_site_translates (u : string) (w : world) (e : exn) :
  let req := get_request _headers u in
  (transport (trace w) req).2 = Raises e →
  ∃ e', connect u w = (Raised e', after_call w (transport (trace w) req).1 req)
        ∧ (is_connection_error e = true →
             e' = PyException ("Connection error: " +:+ exn_str e))
        ∧ (is_connection_error e = false → is_timeout e = true →
             e' = PyException ("Timeout: " +:+ exn_str e))
        ∧ (is_connection_error e = false → is_timeout e = false → is_http_error e = true →
             e' = PyException ("HTTP Error: " +:+ exn_str e))
        ∧ (is_connection_error e = false → is_timeout e = false → is_http_error e = false →
             e' = e)
        ∧ (e' = e ∨ ∃ label, e' = PyException (label +:+ exn_str e)
                             ∧ Py.contains (exn_str e) (label +:+ exn_str e) = true).
Proof.
  intros req Hr. rewrite connect_eq. cbv zeta. fold req. rewrite Hr.
  eexists. split; [done|]. unfold translated.
  destruct (is_connection_error e), (is_timeout e), (is_http_error e);
    split_and!; try done; try (by left);
    right; eexists; (split; [done|apply contains_end]).
Qed.

(** ** get_site_id *)

Lemma split_second_comma (s : string) :
  Py.contains "," s = true →
  ∃ before after, PyExt.cut ","%char s = (before, Some after)
                  ∧ ∀ w, split_second (JStr s) w = (Done (JStr after), w).
Proof.
  intros Hc. change "," with (String ","%char EmptyString) in Hc.
  rewrite contains_char in Hc. apply negb_true_iff in Hc.
  destruct (PyExt.cut ","%char s) as [before [after|]] eqn:E.
  - exists before, after. split; [done|]. intros w.
    unfold split_second, PyExt.split_once. by rewrite E.
  - apply cut_None in E as [_ E]. congruence.
Qed.

(** X14: for an id that is a non-empty string, [get_site_id] returns the
    id unchanged when it has no comma, and otherwise everything after its
    first comma, further commas included: the returned string put after
    the part before the first comma and a comma gives the id back. *)
Theorem get_site_id_after_first_comma (sharepoint_domain sharepoint_site_name : string)
    (w : world) (r : response) (m : gmap string json) (s : string) :
  let req := get_request _headers (site_url sharepoint_domain sharepoint_site_name) in
  (transport (trace w) req).2 = Responds r → passes r →
  json_body r = Some (JObj m) → m !! "id" = Some (JStr s) → s ≠ EmptyString →
  ∃ result,
    site_id_of sharepoint_domain sharepoint_site_name w
    = (Done (JStr result), after_call w (transport (trace w) req).1 req)
    ∧ (free_of ","%char s = true → result = s)
    ∧ (∀ before after, s = before +:+ "," +:+ after → free_of ","%char before = true →
         result = after)
    ∧ ∃ before, free_of ","%char before = true
                ∧ (s = result ∨ s = before +:+ "," +:+ result).
Proof.
  intros req Hr Hpass Hbody Hid Hs.
  unfold get_site_id, mbind at 1, MX_bind at 1, liftM at 1.
  rewrite (connect_passes _ w r Hr Hpass). fold req.
  unfold mbind, MX_bind, liftM, lift, response_json, dict_get. rewrite Hbody. simpl.
  rewrite Hid. simpl. destruct s as [|c s]; [done|]. simpl negb. cbv iota.
  unfold str_in, mret, MX_ret.
  destruct (Py.contains "," (String c s)) eqn:Hc.
  - destruct (split_second_comma _ Hc) as (before & after & Hcut & Hsplit).
    rewrite Hsplit. apply cut_Some in Hcut as [Heq Hfree].
    exists after. split_and!; [done| | |].
    + intros Hnone. change "," with (String ","%char EmptyString) in Hc.
      rewrite contains_char, Hnone in Hc. done.
    + intros b a Hba Hb. rewrite Hba in Heq.
      pose proof (cut_append ","%char b a Hb) as H1.
      pose proof (cut_append ","%char before after Hfree) as H2.
      change ("," +:+ a) with (String ","%char a) in Heq.
      rewrite Heq in H1. rewrite H1 in H2. by injection H2.
    + exists before. split; [done|]. by right.
  - exists (String c s). split_and!; [done|done| |].
    + intros b a Hba Hb. change "," with (String ","%char EmptyString) in Hc.
      rewrite contains_char in Hc. apply negb_false_iff in Hc.
      pose proof (cut_free _ _ Hc) as H1. rewrite Hba in H1.
      change ("," +:+ a) with (String ","%char a) in H1.
      by rewrite (cut_append ","%char b a Hb) in H1.
    + exists EmptyString. split; [done|]. by left.
Qed.

(** X15: when the body of the answer is a dict whose [id] is missing or
    falsy (null, empty string, zero, false, empty list or dict),
    [get_site_id] raises [Site ID not found in response.]; the status is
    not looked at beyond 400, 401 and 404, so an error answer such as a 403
    with a JSON error body ends the same way. *)
Theorem get_site_id_not_found (sharepoint_domain sharepoint_site_name : string)
    (w : world) (r : response) (m : gmap string json) :
  let req := get_request _headers (site_url sharepoint_domain sharepoint_site_name) in
  (transport (trace w) req).2 = Responds r → passes r →
  json_body r = Some (JObj m) → PyExt.truthy (default JNull (m !! "id")) = false →
  site_id_of sharepoint_domain sharepoint_site_name w
  = (Failed (Builtin (PyException "Site ID not found in response.")),
     after_call w (transport (trace w) req).1 req).
Proof.
  intros req Hr Hpass Hbody Hid.
  unfold get_site_id, mbind at 1, MX_bind at 1, liftM at 1.
  rewrite (connect_passes _ w r Hr Hpass). fold req.
  unfold mbind, MX_bind, liftM, lift, response_json, dict_get. rewrite Hbody. simpl.
  by rewrite Hid.
Qed.

(** X16: whatever the remote side answers, [get_site_id] issues exactly
    one GET and nothing else, and it never raises [IndexError]: the index
    1 is only taken of a split that has two pieces. *)
Theorem get_site_id_never_index_error (sharepoint_domain sharepoint_site_name : string)
    (w : world) :
  let req := get_request _headers (site_url sharepoint_domain sharepoint_site_name) in
  let run := site_id_of sharepoint_domain sharepoint_site_name w in
  run.1 ≠ Failed IndexError ∧ run.1 ≠ Unfinished
  ∧ run.2 = after_call w (transport (trace w) req).1 req.
Proof.
  intros req run.
  assert (∃ o, run = (o, after_call w (transport (trace w) req).1 req)
               ∧ o ≠ Failed IndexError ∧ o ≠ Unfinished) as (o & -> & Ho & Hu);
    [|done].
  unfold run, get_site_id, mbind at 1, MX_bind at 1, liftM at 1.
  rewrite connect_eq. cbv zeta. fold req.
  destruct (transport (trace w) req).2 as [e|r]; [by eexists|].
  destruct (status_code r =? 400)%Z; [by eexists|].
  destruct (status_code r =? 401)%Z; [by eexists|].
  destruct (status_code r =? 404)%Z; [by eexists|].
  unfold mbind, MX_bind, liftM, lift, response_json, dict_get.
  destruct (json_body r) as [data|]; [|by eexists]. simpl.
  destruct data as [| | | | |m]; try (by eexists). simpl.
  destruct (PyExt.truthy (default JNull (m !! "id"))); [|by eexists]. simpl.
  destruct (default JNull (m !! "id")) as [|b|q|s|l|m']; simpl; try (by eexists).
  - destruct (Py.contains "," s) eqn:Hc; [|by eexists].
    destruct (split_second_comma _ Hc) as (before & after & _ & Hsplit).
    rewrite Hsplit. by eexists.
  - destruct (existsb _ l); by eexists.
  - destruct (bool_decide _); by eexists.
Qed.

(** ** The range methods and the pivot listing *)

Lemma status_and_text_in_message (label : string) (r : response) :
  Py.contains (Py.str (status_code r))
    (label +:+ Py.str (status_code r) +:+ ", " +:+ text r) = true
  ∧ Py.contains (text r) (label +:+ Py.str (status_code r) +:+ ", " +:+ text r) = true.
Proof.
  split.
  - apply contains_later, contains_here.
  - do 3 apply contains_later. apply contains_self.
Qed.

(** X17: [set_range_number_format] issues one PATCH with the format as its
    JSON body and takes status 200 alone for a success: on any other
    status, an ok one such as 204 included, it raises an error that
    carries the status and the body. *)
Theorem set_range_number_format_only_200
    (site_id drive_id item_id raw_data_sheet_name range_address number_format : string)
    (w : world) (r : response) :
  let req := patch_request _headers
               (format_endpoint site_id drive_id item_id raw_data_sheet_name range_address)
               (JObj {["numberFormat" := JObj {["format" := JStr number_format]}]}) in
  let run := set_range_number_format transport _headers site_id drive_id item_id
               raw_data_sheet_name range_address number_format w in
  (transport (trace w) req).2 = Responds r →
  run.2 = after_call w (transport (trace w) req).1 req
  ∧ (run.1 = Returned tt ↔ status_code r = 200%Z)
  ∧ (status_code r ≠ 200%Z → run.1 = Raised (PyException (format_failed_message r)))
  ∧ Py.contains (Py.str (status_code r)) (format_failed_message r) = true
  ∧ Py.contains (text r) (format_failed_message r) = true.
Proof.
  intros req run Hr.
  assert (run = (if (status_code r =? 200)%Z then Returned tt
                 else Raised (PyException (format_failed_message r)),
                 after_call w (transport (trace w) req).1 req)) as ->.
  { unfold run, set_range_number_format, session_patch, mbind, M_bind. rewrite send_eq.
    fold req. rewrite Hr. by destruct (status_code r =? 200)%Z. }
  destruct (status_and_text_in_message "Format update failed: " r) as [Hstatus Htext].
  fold (format_failed_message r) in Hstatus, Htext.
  simpl. destruct (Z.eqb_spec (status_code r) 200) as [E|E]; split_and!; try done.
Qed.

(** X18: [clear_worksheet_range] issues one POST and takes the statuses
    200 and 204 alone for a success: on any other status, an ok one such
    as 202 included, it raises an error that carries the status and the
    body. *)
Theorem clear_worksheet_range_200_or_204
    (site_id drive_id item_id raw_data_sheet_name clear_range : string)
    (w : world) (r : response) :
  let req := post_request _headers
               (clear_endpoint site_id drive_id item_id raw_data_sheet_name clear_range) in
  let run := clear_worksheet_range transport _headers site_id drive_id item_id
               raw_data_sheet_name clear_range w in
  (transport (trace w) req).2 = Responds r →
  run.2 = after_call w (transport (trace w) req).1 req
  ∧ (run.1 = Returned tt ↔ status_code r = 200%Z ∨ status_code r = 204%Z)
  ∧ (status_code r ≠ 200%Z → status_code r ≠ 204%Z →
       run.1 = Raised (PyException (clear_failed_message r)))
  ∧ Py.contains (Py.str (status_code r)) (clear_failed_message r) = true
  ∧ Py.contains (text r) (clear_failed_message r) = true.
Proof.
  intros req run Hr.
  assert (run = (if PyExt.in_list (status_code r) [200; 204]%Z then Returned tt
                 else Raised (PyException (clear_failed_message r)),
                 after_call w (transport (trace w) req).1 req)) as ->.
  { unfold run, clear_worksheet_range, session_post, mbind, M_bind. rewrite send_eq.
    fold req. rewrite Hr. by destruct (PyExt.in_list _ _). }
  destruct (status_and_text_in_message "Failed to clear sheet: " r) as [Hstatus Htext].
  fold (clear_failed_message r) in Hstatus, Htext.
  unfold PyExt.in_list. simpl.
  destruct (Z.eqb_spec (status_code r) 200) as [E|E];
    destruct (Z.eqb_spec (status_code r) 204) as [E'|E']; simpl;
    split_and!; try done; try (split; [intros _; by (left + right)|done]).
  split; [done|]. by intros [?|?].
Qed.

(** X19: [list_pivot_tables] issues the same GET as the diagnostic read of
    [refresh_pivot_table] and leaves the same world.  It returns the
    decoded body of an ok answer; whenever the diagnostic read raises, it
    raises the same exception; the two differ on an answer that is not ok,
    which the diagnostic read passes over and which [list_pivot_tables]
    turns into an error that carries the status and the body. *)
Theorem list_pivot_tables_and_diagnostic_read
    (site_id drive_id item_id worksheet_name : string) (w : world) :
  let req := diagnostic_request _headers quote site_id drive_id item_id worksheet_name in
  let listing := list_pivot_tables transport _headers quote site_id drive_id item_id
                   worksheet_name w in
  let reading := diagnostic_read transport _headers
                   (pivot_tables_endpoint site_id drive_id item_id (quote worksheet_name)) w in
  listing.2 = reading.2
  ∧ listing.2 = after_call w (transport (trace w) req).1 req
  ∧ (∀ e, reading.1 = Raised e → listing.1 = Raised e)
  ∧ (∀ doc, listing.1 = Returned doc →
       reading.1 = Returned tt
       ∧ ∃ r, (transport (trace w) req).2 = Responds r ∧ ok r = true
              ∧ json_body r = Some doc)
  ∧ (∀ r, (transport (trace w) req).2 = Responds r → ok r = false →
       reading.1 = Returned tt
       ∧ listing.1 = Raised (PyException (listing_failed_message r))
       ∧ Py.contains (Py.str (status_code r)) (listing_failed_message r) = true
       ∧ Py.contains (text r) (listing_failed_message r) = true).
Proof.
  intros req listing reading.
  assert (listing = (match (transport (trace w) req).2 with
                     | Raises e => Raised e
                     | Responds r =>
                         if ok r then
                           match json_body r with
                           | Some doc => Returned doc
                           | None => Raised JSONDecodeError
                           end
                         else Raised (PyException (listing_failed_message r))
                     end, after_call w (transport (trace w) req).1 req)) as ->.
  { unfold listing, list_pivot_tables, session_get, mbind, M_bind. rewrite send_eq.
    fold (diagnostic_request _headers quote site_id drive_id item_id worksheet_name).
    fold req. destruct (transport (trace w) req).2 as [e|r]; [done|]. simpl.
    destruct (ok r); [|done]. unfold lift, response_json. by destruct (json_body r). }
  unfold reading. rewrite diagnostic_read_eq. cbv zeta.
  fold (diagnostic_request _headers quote site_id drive_id item_id worksheet_name).
  fold req. simpl.
  destruct (transport (trace w) req).2 as [e|r]; simpl.
  { split_and!; try done. by intros ? [= ->]. }
  destruct (status_and_text_in_message "Error listing pivot tables: " r) as [Hs Ht].
  fold (listing_failed_message r) in Hs, Ht.
  destruct (ok r) eqn:Hok; [destruct (json_body r) as [doc|] eqn:Hbody|]; simpl;
    split_and!; try done;
    try (intros r' [= <-] Hnot; congruence);
    try (by intros ? [= ->]).
  intros d [= <-]. split; [done|]. by exists r.
Qed.

(** ** download_file_content *)

Lemma download_first_eq (site_id drive_id folder_path file_name : string) (w : world) :
  let req := file_request _headers site_id drive_id folder_path file_name in
  let w1 := after_call w (transport (trace w) req).1 req in
  download_file_content transport _headers repr_other content site_id drive_id
    folder_path file_name w =
  match (transport (trace w) req).2 with
  | Raises e => (Raised e, w1)
  | Responds r =>
      if ok r then
        match json_body r with
        | Some (JObj m) =>
            let item_id := default JNull (m !! "id") in
            let dreq := get_request _headers
                          (download_endpoint repr_other site_id drive_id item_id) in
            let w2 := after_call w1 (transport (trace w1) dreq).1 dreq in
            match (transport (trace w1) dreq).2 with
            | Raises e => (Raised e, w2)
            | Responds r2 =>
                if ok r2 then (Returned (content r2), w2)
                else (Raised (PyException (download_failed_message file_name (text r2))), w2)
            end
        | Some _ => (Raised AttributeError, w1)
        | None => (Raised JSONDecodeError, w1)
        end
      else (Raised (PyException (locate_failed_message file_name (text r))), w1)
  end.
Proof.
  cbv zeta. unfold download_file_content, session_get, mbind at 1, M_bind at 1.
  rewrite send_eq. fold (file_request _headers site_id drive_id folder_path file_name).
  destruct (transport (trace w) _).2 as [e|r]; [done|]. simpl.
  destruct (ok r); [|done]. simpl.
  unfold mbind, M_bind, lift, response_json, dict_get.
  destruct (json_body r) as [[| | | | |m]|]; try done. simpl.
  rewrite send_eq. destruct (transport _ _).2 as [e|r2]; [done|].
  by destruct (ok r2).
Qed.

(** X20: when the metadata GET of [download_file_content] is answered
    with a response that is not ok, the call raises [Failed to locate
    file] with the file name and the body, and the download request is
    never issued. *)
Theorem download_file_content_not_located
    (site_id drive_id folder_path file_name : string) (w : world) (r : response) :
  let req := file_request _headers site_id drive_id folder_path file_name in
  (transport (trace w) req).2 = Responds r → ok r = false →
  download_file_content transport _headers repr_other content site_id drive_id
    folder_path file_name w
  = (Raised (PyException (locate_failed_message file_name (text r))),
     after_call w (transport (trace w) req).1 req)
  ∧ Py.contains file_name (locate_failed_message file_name (text r)) = true
  ∧ Py.contains (text r) (locate_failed_message file_name (text r)) = true.
Proof.
  intros req Hr Hok. rewrite download_first_eq. cbv zeta. fold req. rewrite Hr, Hok.
  split_and!; [done| |].
  - apply contains_later, contains_here.
  - unfold locate_failed_message. do 3 apply contains_later. apply contains_self.
Qed.

(** X21: when the metadata of the file has no [id], [download_file_content]
    does not stop: it formats the missing id as [None] and issues its
    second GET to [.../items/None/content]. *)
Theorem download_file_content_missing_id
    (site_id drive_id folder_path file_name : string) (w : world) (r : response)
    (m : gmap string json) :
  let req := file_request _headers site_id drive_id folder_path file_name in
  let dreq := get_request _headers
                ("https://graph.microsoft.com/v1.0/sites/" +:+ site_id +:+ "/drives/"
                   +:+ drive_id +:+ "/items/None/content") in
  (transport (trace w) req).2 = Responds r → ok r = true →
  json_body r = Some (JObj m) → m !! "id" = None →
  trace (download_file_content transport _headers repr_other content site_id drive_id
           folder_path file_name w).2
  = trace w ++ [ERequest req; ERequest dreq].
Proof.
  intros req dreq Hr Hok Hbody Hid. rewrite download_first_eq. cbv zeta. fold req.
  rewrite Hr, Hok, Hbody, Hid. simpl default.
  change (get_request _headers (download_endpoint repr_other site_id drive_id JNull))
    with dreq.
  destruct (transport _ dreq).2 as [e|r2]; [|destruct (ok r2)]; simpl;
    by rewrite <- app_assoc.
Qed.

(** X22: [download_file_content] reads the same [id] that a lookup of
    [wait_for_file] puts in its metadata: when the lookup finds [meta] in
    an answer, the download goes to the item of [meta]'s id, and an ok
    answer to it makes the call return the bytes of that answer after
    exactly these two GETs. *)
Theorem download_file_content_follows_lookup
    (site_id drive_id folder_path file_name : string) (w : world) (r r2 : response)
    (meta : gmap string json) :
  let req := file_request _headers site_id drive_id folder_path file_name in
  let w1 := after_call w (transport (trace w) req).1 req in
  (transport (trace w) req).2 = Responds r →
  found (Responds r) = Some meta →
  ∃ item_id,
    meta !! "id" = Some item_id
    ∧ let dreq := get_request _headers
                    (download_endpoint repr_other site_id drive_id item_id) in
      ((transport (trace w1) dreq).2 = Responds r2 → ok r2 = true →
       download_file_content transport _headers repr_other content site_id drive_id
         folder_path file_name w
       = (Returned (content r2), after_call w1 (transport (trace w1) dreq).1 dreq))
      ∧ trace (download_file_content transport _headers repr_other content site_id
                 drive_id folder_path file_name w).2
        = trace w ++ [ERequest req; ERequest dreq].
Proof.
  intros req w1 Hr Hfound. unfold found, response_json in Hfound.
  destruct (ok r) eqn:Hok; [|done].
  destruct (json_body r) as [data|] eqn:Hbody; [|done].
  destruct (file_metadata data) as [meta'| |] eqn:Hmeta; try done.
  injection Hfound as ->.
  destruct (file_metadata_fields data meta Hmeta) as (_ & _ & m & -> & Hid & _).
  exists (default JNull (m !! "id")). split; [done|]. cbv zeta.
  rewrite download_first_eq. cbv zeta. fold req. rewrite Hr, Hok, Hbody. fold w1. split.
  - by intros -> ->.
  - destruct (transport (trace w1) _).2 as [e|r3]; [|destruct (ok r3)]; simpl;
      by rewrite <- app_assoc.
Qed.

End SingleCallProperties.

(** ** The further theorems at work *)

Import Cases.


(** Three rate-limited answers without a hint: 1 + 2 + 4 seconds. *)
Lemma update_range_data_total_backoff_witness :
  ∃ w', update_range_data (always (Responds rate_limited)) ∅
          "site" "drive" "item" "Data" "A2:A11" [] 0 10 3 w0
        = (Raised (PyException "Failed to update rows 1 to 10 after 3 attempts."), w')
        ∧ sleeps (trace w') = [1; 2; 4]%Z ∧ total_sleep (trace w') = 7%Z.
Proof.
  destruct (update_range_data_total_backoff (always (Responds rate_limited)) ∅
              "site" "drive" "item" "Data" "A2:A11" [] 0 10 3 w0)
    as (w' & Hrun & Hsleeps & Htotal).
  - lia.
  - intros h. exists rate_limited. split_and!; vm_compute; reflexivity.
  - exists w'. split_and!; [exact Hrun|exact Hsleeps|exact Htotal].
Defined.


(** One duration-exceeded answer, then an ok one: two POST calls, one wait
    of two seconds, no GET. *)
Lemma refresh_pivot_table_succeeds_after_retries_witness :
  ∃ w', refresh_pivot_table
          (after_failures 1 (Responds duration_exceeded) (Responds updated)) ∅ quote_plain
          "site" "drive" "item" "Pivot" 3 w0 = (Returned tt, w')
        ∧ calls POST (trace w') = 2%nat ∧ calls GET (trace w') = 0%nat
        ∧ sleeps (trace w') = [2%Z].
Proof.
  destruct (refresh_pivot_table_succeeds_after_retries
              (after_failures 1 (Responds duration_exceeded) (Responds updated)) ∅
              quote_plain "site" "drive" "item" "Pivot" 3 1 w0)
    as (w' & Hrun & Hposts & Hgets & Hsleeps).
  - lia.
  - lia.
  - intros h Hh. exists duration_exceeded. unfold after_failures. simpl.
    apply Nat.ltb_lt in Hh. simpl in Hh. rewrite Hh.
    split_and!; vm_compute; reflexivity.
  - intros h Hh. exists updated. unfold after_failures. simpl.
    simpl in Hh. rewrite Hh. split; vm_compute; reflexivity.
  - exists w'. split_and!; [exact Hrun|exact Hposts|exact Hgets|exact Hsleeps].
Defined.

(** A timeout of zero: the error at once, nothing in the trace. *)
Lemma wait_for_file_no_time_witness :
  wait_for_file (always (Responds file_item)) ∅ 10 "site" "drive" "folder" "report.xlsx"
    0 3 w0
  = (Raised (PyException "Timeout waiting for file 'report.xlsx' in 'folder'."), w0).
Proof.
  apply (wait_for_file_no_time (always (Responds file_item)) ∅ 10
           "site" "drive" "folder" "report.xlsx" 0 3 w0).
  lia.
Defined.

(** Timeout 10 and poll interval 3 with nothing to find: four lookups, and
    three sleeps of three seconds stay below ten. *)
Lemma wait_for_file_deadline_witness :
  ∃ ev, trace (wait_for_file (always (Responds not_found)) ∅ 10
                 "site" "drive" "folder" "report.xlsx" 10 3 w0).2 = trace w0 ++ ev
        ∧ calls GET ev = 4%nat
        ∧ ((Z.of_nat (calls GET ev) - 1) * 3 < 10)%Z.
Proof.
  destruct (wait_for_file_deadline (always (Responds not_found)) ∅ 10
              "site" "drive" "folder" "report.xlsx" 10 3 w0)
    as (ev & Htr & _ & _ & Hgets).
  - intros h. apply Qle_refl.
  - exists ev. split; [exact Htr|].
    assert (calls GET ev = 4%nat) as Hfour.
    { vm_compute in Htr. subst ev. vm_compute. reflexivity. }
    split; [exact Hfour|]. destruct Hgets as [Hzero|Hlt]; [|exact Hlt].
    rewrite Hfour in Hzero. discriminate.
Defined.

(** A poll interval of -1: [ValueError] after the first lookup. *)
Lemma wait_for_file_negative_interval_witness :
  let run := wait_for_file (always (Responds not_found)) ∅ 10
               "site" "drive" "folder" "report.xlsx" 5 (-1) w0 in
  run.1 = Raised ValueError ∧ calls GET (trace run.2) = 1%nat.
Proof.
  cbv zeta.
  rewrite (wait_for_file_negative_interval (always (Responds not_found)) ∅ 10
             "site" "drive" "folder" "report.xlsx" 5 (-1) w0);
    [|lia|unfold max_sleep; lia|lia|reflexivity].
  split; vm_compute; reflexivity.
Defined.

(** The metadata of an item with an id and a creation time only. *)
Lemma file_metadata_shape_witness :
  let data := JObj {["id" := JStr "42"; "createdDateTime" := JStr "2024-01-02T03:04:05Z"]} in
  ∃ meta, file_metadata data = Returned meta
          ∧ dom meta = ({["id"; "name"; "createdDateTime"; "webUrl"]} : gset string)
          ∧ meta !! "createdDateTime" = Some (JStr "2024-01-02 03:04:05")
          ∧ meta !! "webUrl" = Some JNull.
Proof.
  cbv zeta.
  destruct (file_metadata
              (JObj {["id" := JStr "42"; "createdDateTime" := JStr "2024-01-02T03:04:05Z"]}))
    as [meta| |] eqn:E; [|vm_compute in E; discriminate..].
  destruct (file_metadata_shape _ meta E) as (Hdom & _ & _).
  exists meta. split_and!; [reflexivity|exact Hdom| |];
    vm_compute in E; injection E as <-; vm_compute; reflexivity.
Defined.


(** A connect timeout, which is a [ConnectionError] and a [Timeout], is
    reported as a connection error. *)
Lemma connect_to_site_translates_witness :
  (__connect_to_site (always (Raises connect_timeout)) ∅ is_connection_error is_timeout
     is_http_error message_of "https://example.org" w0).1
  = Raised (PyException "Connection error: connect timeout").
Proof.
  destruct (connect_to_site_translates (always (Raises connect_timeout)) ∅
              is_connection_error is_timeout is_http_error message_of
              "https://example.org" w0 connect_timeout eq_refl)
    as (e' & Hrun & Hconn & _).
  rewrite Hrun. simpl. f_equal. apply Hconn. reflexivity.
Defined.

(** The id [contoso.sharepoint.com,abc,xyz] gives [abc,xyz]. *)
Lemma get_site_id_after_first_comma_witness :
  (get_site_id (always (Responds (site (JStr "contoso.sharepoint.com,abc,xyz")))) ∅
     is_connection_error is_timeout is_http_error message_of
     "contoso.sharepoint.com" "/sites/finance" w0).1
  = Done (JStr "abc,xyz").
Proof.
  destruct (get_site_id_after_first_comma
              (always (Responds (site (JStr "contoso.sharepoint.com,abc,xyz")))) ∅
              is_connection_error is_timeout is_http_error message_of
              "contoso.sharepoint.com" "/sites/finance" w0
              (site (JStr "contoso.sharepoint.com,abc,xyz"))
              {["id" := JStr "contoso.sharepoint.com,abc,xyz"]}
              "contoso.sharepoint.com,abc,xyz")
    as (result & Hrun & _ & Hafter & _).
  - reflexivity.
  - unfold passes. simpl. lia.
  - reflexivity.
  - vm_compute. reflexivity.
  - discriminate.
  - rewrite Hrun. simpl. f_equal. f_equal.
    apply (Hafter "contoso.sharepoint.com" "abc,xyz"); reflexivity.
Defined.

(** A 403 with a JSON error body: the site id is reported as not found. *)
Lemma get_site_id_not_found_witness :
  (get_site_id (always (Responds forbidden)) ∅ is_connection_error is_timeout
     is_http_error message_of "contoso.sharepoint.com" "/sites/finance" w0).1
  = Failed (Builtin (PyException "Site ID not found in response.")).
Proof.
  rewrite (get_site_id_not_found (always (Responds forbidden)) ∅ is_connection_error
             is_timeout is_http_error message_of "contoso.sharepoint.com" "/sites/finance"
             w0 forbidden {["error" := JStr "accessDenied"]}).
  - reflexivity.
  - reflexivity.
  - unfold passes. simpl. lia.
  - reflexivity.
  - vm_compute. reflexivity.
Defined.

(** A 204 is no success for [set_range_number_format]. *)
Lemma set_range_number_format_only_200_witness :
  ok no_content = true
  ∧ (set_range_number_format (always (Responds no_content)) ∅
       "site" "drive" "item" "Data" "A:A" "@" w0).1
    = Raised (PyException "Format update failed: 204, ").
Proof.
  split; [reflexivity|].
  destruct (set_range_number_format_only_200 (always (Responds no_content)) ∅
              "site" "drive" "item" "Data" "A:A" "@" w0 no_content eq_refl)
    as (_ & _ & Hraise & _).
  rewrite Hraise; [reflexivity|]. simpl. lia.
Defined.

(** A 202 is no success for [clear_worksheet_range]. *)
Lemma clear_worksheet_range_200_or_204_witness :
  ok accepted = true
  ∧ (clear_worksheet_range (always (Responds accepted)) ∅
       "site" "drive" "item" "Data" "A2:Z9" w0).1
    = Raised (PyException "Failed to clear sheet: 202, queued").
Proof.
  split; [reflexivity|].
  destruct (clear_worksheet_range_200_or_204 (always (Responds accepted)) ∅
              "site" "drive" "item" "Data" "A2:Z9" w0 accepted eq_refl)
    as (_ & _ & Hraise & _).
  rewrite Hraise; [reflexivity| |]; simpl; lia.
Defined.

(** A file that is not there: one GET, then the error. *)
Lemma download_file_content_not_located_witness :
  let run := download_file_content (locate_then (Responds not_found) (Responds file_bytes)) ∅
               repr_other content "site" "drive" "folder" "report.xlsx" w0 in
  run.1 = Raised (PyException "Failed to locate file 'report.xlsx': itemNotFound")
  ∧ calls GET (trace run.2) = 1%nat.
Proof.
  cbv zeta.
  destruct (download_file_content_not_located
              (locate_then (Responds not_found) (Responds file_bytes)) ∅ repr_other content
              "site" "drive" "folder" "report.xlsx" w0 not_found) as (Hrun & _).
  - vm_compute. reflexivity.
  - reflexivity.
  - rewrite Hrun. split; vm_compute; reflexivity.
Defined.

(** Metadata without an id: the second GET goes to [items/None/content]. *)
Lemma download_file_content_missing_id_witness :
  map (λ e, match e with ERequest r => url r | ESleep _ => EmptyString end)
    (trace (download_file_content
              (locate_then (Responds item_without_id) (Responds file_bytes)) ∅
              repr_other content "site" "drive" "folder" "report.xlsx" w0).2)
  = ["https://graph.microsoft.com/v1.0/sites/site/drives/drive/root:/folder/report.xlsx";
     "https://graph.microsoft.com/v1.0/sites/site/drives/drive/items/None/content"].
Proof.
  rewrite (download_file_content_missing_id
             (locate_then (Responds item_without_id) (Responds file_bytes)) ∅
             repr_other content "site" "drive" "folder" "report.xlsx" w0 item_without_id
             {["name" := JStr "report.xlsx"]}).
  - reflexivity.
  - vm_compute. reflexivity.
  - reflexivity.
  - reflexivity.
  - vm_compute. reflexivity.
Defined.

(** The item that a lookup finds under id 42 is downloaded from
    [items/42/content]. *)
Lemma download_file_content_follows_lookup_witness :
  let run := download_file_content (locate_then (Responds file_item) (Responds file_bytes)) ∅
               repr_other content "site" "drive" "folder" "report.xlsx" w0 in
  run.1 = Returned [Byte.x50; Byte.x4b]
  ∧ calls GET (trace run.2) = 2%nat.
Proof.
  cbv zeta.
  destruct (found (Responds file_item)) as [meta|] eqn:Hfound;
    [|vm_compute in Hfound; discriminate].
  destruct (download_file_content_follows_lookup
              (locate_then (Responds file_item) (Responds file_bytes)) ∅ repr_other content
              "site" "drive" "folder" "report.xlsx" w0 file_item file_bytes meta)
    as (item_id & Hid & Hrun & Htrace).
  - vm_compute. reflexivity.
  - exact Hfound.
  - vm_compute in Hfound. injection Hfound as <-. vm_compute in Hid. injection Hid as <-.
    rewrite Hrun; [split; vm_compute; reflexivity| |]; vm_compute; reflexivity.
Defined.

(** A rate-limited answer with [Retry-After: 9223372037]: [OverflowError]
    after the first of three allowed attempts. *)
Lemma update_range_data_overlong_hint_witness :
  let run := update_range_data (always (Responds (rate_limited_after "9223372037"))) ∅
               "site" "drive" "item" "Data" "A2:A11" [] 0 10 3 w0 in
  run.1 = Raised OverflowError ∧ calls PATCH (trace run.2) = 1%nat.
Proof.
  cbv zeta.
  rewrite (update_range_data_overlong_hint
             (always (Responds (rate_limited_after "9223372037"))) ∅
             "site" "drive" "item" "Data" "A2:A11" [] 0 10 3 w0
             (rate_limited_after "9223372037")).
  - split; vm_compute; reflexivity.
  - lia.
  - reflexivity.
  - reflexivity.
  - reflexivity.
  - vm_compute. reflexivity.
  - vm_compute. reflexivity.
Defined.

(** A poll interval of ten thousand million seconds: [OverflowError]
    after the first lookup. *)
Lemma wait_for_file_overlong_interval_witness :
  let run := wait_for_file (always (Responds not_found)) ∅ 10
               "site" "drive" "folder" "report.xlsx" 5 10000000000 w0 in
  run.1 = Raised OverflowError ∧ calls GET (trace run.2) = 1%nat.
Proof.
  cbv zeta.
  rewrite (wait_for_file_overlong_interval (always (Responds not_found)) ∅ 10
             "site" "drive" "folder" "report.xlsx" 5 10000000000 w0);
    [|lia|right; unfold max_sleep; lia|lia|reflexivity].
  split; vm_compute; reflexivity.
Defined.
